(** * Verification of [scripts/config_generator.py]

    A shallow embedding of the [ConfigGenerator] class: the documents it
    builds (Python dicts, lists, strings and numbers), the text it formats,
    the GPU probe of its constructor, the [save_config] file writer and
    [main], with the properties stated about them.

    Strings are byte strings: a Python [str] is its UTF-8 text. *)

From Stdlib Require Import ZArith Ascii String List Lia Bool.
From Stdlib Require Import DecimalString DecimalPos.
From stdpp Require Import gmap strings list.

Local Open Scope Z_scope.
Set Warnings "-register-all".

(** String append computes under [simpl] in this development. *)
Arguments String.append !s1 s2 : simpl nomatch.

(** ** Python values *)

(** Characters that cannot be typed inside a Rocq string literal. *)
Definition nl : string := String (ascii_of_nat 10) EmptyString.
Definition dq : string := String (ascii_of_nat 34) EmptyString.

(** A Python [float] is an IEEE binary64 number.  Only finite values occur in
    the program; a finite value is [(-1)^sign * mant * 2^exp] with
    [0 <= mant < 2^53] and [-1074 <= exp <= 971], normalised so that
    [2^52 <= mant] unless [exp = -1074]. *)
Record float := mkFloat { f_sign : bool; f_mant : Z; f_exp : Z }.

Definition float_eqb (x y : float) : bool :=
  Bool.eqb (f_sign x) (f_sign y) && (f_mant x =? f_mant y) && (f_exp x =? f_exp y).

(** [round_half_even a b] is the integer nearest to [a / b] ([0 <= a], [0 < b]),
    ties going to the even one: the rounding of binary64 arithmetic. *)
Definition round_half_even (a b : Z) : Z :=
  let q := a / b in
  let r := a mod b in
  match 2 * r ?= b with
  | Lt => q
  | Gt => q + 1
  | Eq => if Z.even q then q else q + 1
  end.

(** [scale2 a b e] is the fraction [(a / b) / 2^e] as a pair. *)
Definition scale2 (a b e : Z) : Z * Z :=
  if 0 <=? e then (a, b * 2 ^ e) else (a * 2 ^ (- e), b).

(** [floor_log2 a b] is the integer [k] with [2^k <= a / b < 2^(k+1)]. *)
Definition floor_log2 (a b : Z) : Z :=
  let k := Z.log2 a - Z.log2 b in
  let '(n, d) := scale2 a b k in
  if d <=? n then k else k - 1.

(** The binary64 number nearest to [digits * 10^exp10]: what [float(...)] does
    with a decimal literal.  [None] stands for a literal too large for a
    finite value. *)
Definition float_of_decimal (neg : bool) (digits exp10 : Z) : option float :=
  if digits <=? 0 then Some (mkFloat neg 0 (-1074)) else
  let '(a, b) := if 0 <=? exp10 then (digits * 10 ^ exp10, 1)
                 else (digits, 10 ^ (- exp10)) in
  let e := Z.max (floor_log2 a b - 52) (-1074) in
  let '(n, d) := scale2 a b e in
  let m := round_half_even n d in
  let '(m, e) := if m =? 2 ^ 53 then (2 ^ 52, e + 1) else (m, e) in
  if 971 <? e then None else Some (mkFloat neg m e).

(** The float literals of the source file. *)
Definition float_lit (digits exp10 : Z) : float :=
  match float_of_decimal false digits exp10 with
  | Some f => f
  | None => mkFloat false 0 (-1074)
  end.

(** *** Text of numbers *)

(** [repr] of an [int]: decimal digits, [-] before a negative one. *)
Definition int_repr (z : Z) : string := NilZero.string_of_int (Z.to_int z).

(** [scale10 a b p] is the fraction [(a / b) / 10^p] as a pair. *)
Definition scale10 (a b p : Z) : Z * Z :=
  if 0 <=? p then (a, b * 10 ^ p) else (a * 10 ^ (- p), b).

Fixpoint log10_up (fuel : nat) (a b k : Z) : Z :=
  match fuel with
  | O => k
  | S fuel' => if b * 10 <=? a then log10_up fuel' a (b * 10) (k + 1) else k
  end.

Fixpoint log10_down (fuel : nat) (a b k : Z) : Z :=
  match fuel with
  | O => k
  | S fuel' => if a <? b then log10_down fuel' (a * 10) b (k - 1) else k
  end.

(** [floor_log10 a b] is the integer [k] with [10^k <= a / b < 10^(k+1)], for
    fractions in the range of binary64. *)
Definition floor_log10 (a b : Z) : Z :=
  if b <=? a then log10_up 400 a b 0 else log10_down 400 a b 0.

Definition option_float_eqb (o : option float) (f : float) : bool :=
  match o with
  | Some g => float_eqb g f
  | None => false
  end.

(** The shortest decimal [digits * 10^exp10] that reads back as [f], and
    among the decimals of that length the one nearest to [f].  For
    [n = 1, 2, ...] digits the two decimals of [n] digits around [f] are
    tried, the nearer one first; at 17 digits the nearest is taken as it
    is. *)
Fixpoint shortest_decimal (fuel : nat) (n : Z) (f : float) (a b k10 : Z) : Z * Z :=
  let p := k10 - n + 1 in
  let '(x, y) := scale10 a b p in
  let below := x / y in
  let nearest := round_half_even x y in
  let reads d := option_float_eqb (float_of_decimal (f_sign f) d p) f in
  let carry d := if d =? 10 ^ n then (10 ^ (n - 1), p + 1) else (d, p) in
  match fuel with
  | O => carry nearest
  | S fuel' =>
      if reads nearest then carry nearest
      else if reads below then carry below
      else if reads (below + 1) then carry (below + 1)
      else shortest_decimal fuel' (n + 1) f a b k10
  end.

Fixpoint zeros (n : nat) : string :=
  match n with
  | O => EmptyString
  | S n' => String "0" (zeros n')
  end.

Definition uint_repr (z : Z) : string := NilZero.string_of_uint (N.to_uint (Z.to_N z)).

(** [repr] of a [float]: the shortest digits that read back as the same
    number, in positional notation with at least one digit after the point
    when the decimal point falls in [-4 < decpt <= 16], in exponent notation
    with at least two exponent digits otherwise. *)
Definition float_repr (f : float) : string :=
  let sign := if f_sign f then "-" else EmptyString in
  if f_mant f =? 0 then sign +:+ "0.0" else
  let '(a, b) := scale2 (f_mant f) 1 (- f_exp f) in
  let '(d, p) := shortest_decimal 16 1 f a b (floor_log10 a b) in
  let ds := uint_repr d in
  let n := Z.of_nat (String.length ds) in
  let decpt := p + n in
  if (decpt <=? -4) || (16 <? decpt) then
    let e := decpt - 1 in
    let es := uint_repr (Z.abs e) in
    let es := if Z.abs e <? 10 then "0" +:+ es else es in
    let frac := match ds with
                | String c EmptyString => ds
                | String c r => String c ("." +:+ r)
                | EmptyString => ds
                end in
    sign +:+ frac +:+ "e" +:+ (if e <? 0 then "-" else "+") +:+ es
  else if decpt <=? 0 then
    sign +:+ "0." +:+ zeros (Z.to_nat (- decpt)) +:+ ds
  else if n <=? decpt then
    sign +:+ ds +:+ zeros (Z.to_nat (decpt - n)) +:+ ".0"
  else
    sign +:+ String.substring 0 (Z.to_nat decpt) ds +:+ "." +:+
      String.substring (Z.to_nat decpt) (Z.to_nat (n - decpt)) ds.

(** The generic document the generators return: a tree of Python values.  A
    [dict] keeps its keys in insertion order, which the writers of
    [save_config] follow, so it is an association list. *)
Inductive pyval : Type :=
| PNone
| PBool (b : bool)
| PInt (z : Z)
| PFloat (f : float)
| PStr (s : string)
| PList (l : list pyval)
| PDict (d : list (string * pyval)).

Abbreviation pydict := (list (string * pyval)).

(** [d.get(k)] *)
Fixpoint dict_get (k : string) (d : pydict) : option pyval :=
  match d with
  | [] => None
  | (k', v) :: d' => if String.eqb k k' then Some v else dict_get k d'
  end.

(** [d.get(k, default)] *)
Definition dict_get_default (k : string) (d : pydict) (default : pyval) : pyval :=
  match dict_get k d with
  | Some v => v
  | None => default
  end.

Definition dict_keys (d : pydict) : list string := map fst d.

(** Field access on a document that is a dict; [None] on anything else. *)
Definition field (k : string) (v : pyval) : option pyval :=
  match v with
  | PDict d => dict_get k d
  | _ => None
  end.

(** A path of nested keys. *)
Fixpoint field_path (ks : list string) (v : pyval) : option pyval :=
  match ks with
  | [] => Some v
  | k :: ks' => match field k v with
                | Some v' => field_path ks' v'
                | None => None
                end
  end.

(** ** The generator object *)

(** The attributes of a [ConfigGenerator].  [work_dir] and [comfyui_dir] hold
    the string form of the two [Path] objects, which is what every f-string
    and [str(...)] of the class reads. *)
Record ConfigGenerator := mkGenerator {
  work_dir : string;
  comfyui_dir : string;
  gpu_memory_gb : Z
}.

(** *** [optimize_for_gpu_memory] *)

Definition optimize_for_gpu_memory (self : ConfigGenerator) : pyval :=
  if 24 <=? gpu_memory_gb self then
    PDict [ ("memory_management", PStr "high_memory");
            ("batch_size", PInt 4);
            ("attention_mode", PStr "flash_attention");
            ("model_precision", PStr "fp16");
            ("cache_models", PBool true);
            ("memory_fraction", PFloat (float_lit 9 (-1))) ]
  else if 12 <=? gpu_memory_gb self then
    PDict [ ("memory_management", PStr "medium_memory");
            ("batch_size", PInt 2);
            ("attention_mode", PStr "efficient_attention");
            ("model_precision", PStr "fp16");
            ("cache_models", PBool true);
            ("memory_fraction", PFloat (float_lit 8 (-1))) ]
  else
    PDict [ ("memory_management", PStr "low_memory");
            ("batch_size", PInt 1);
            ("attention_mode", PStr "low_mem_attention");
            ("model_precision", PStr "fp16");
            ("cache_models", PBool false);
            ("memory_fraction", PFloat (float_lit 7 (-1)));
            ("enable_sequential_cpu_offload", PBool true) ].

(** *** Exceptions *)

(** The exception classes the program can meet.  All but [KeyboardInterrupt]
    derive from [Exception].  [FileNotFoundError] and [PermissionError] are
    the two kinds of [OSError] told apart; [OSError] stands for the others,
    such as a device that is full. *)
Inductive exn : Type :=
| KeyError (k : string)
| IndexError
| ValueError
| TypeError
| AttributeError
| CalledProcessError (returncode : Z)
| FileNotFoundError
| PermissionError
| OSError
| KeyboardInterrupt.

Inductive result (A : Type) : Type :=
| Return (a : A)
| Raise (e : exn).
Arguments Return {A} a.
Arguments Raise {A} e.

(** [d[k]] *)
Definition dict_getitem (k : string) (d : pydict) : result pyval :=
  match dict_get k d with
  | Some v => Return v
  | None => Raise (KeyError k)
  end.

(** *** [generate_comfyui_workflow] *)

(** A node input that refers to output slot [slot] of node [node]. *)
Definition ref (node : string) (slot : Z) : pyval := PList [PStr node; PInt slot].

Definition workflows : pydict :=
  [ ("basic", PDict
      [ ("1", PDict [ ("class_type", PStr "CheckpointLoaderSimple");
                      ("inputs", PDict [ ("ckpt_name", PStr "flux1-dev.safetensors") ]) ]);
        ("2", PDict [ ("class_type", PStr "CLIPTextEncode");
                      ("inputs", PDict [ ("text", PStr "a beautiful landscape");
                                         ("clip", ref "1" 1) ]) ]);
        ("3", PDict [ ("class_type", PStr "EmptyLatentImage");
                      ("inputs", PDict [ ("width", PInt 1024);
                                         ("height", PInt 1024);
                                         ("batch_size", PInt 1) ]) ]);
        ("4", PDict [ ("class_type", PStr "KSampler");
                      ("inputs", PDict [ ("seed", PInt 42);
                                         ("steps", PInt 20);
                                         ("cfg", PFloat (float_lit 70 (-1)));
                                         ("sampler_name", PStr "euler");
                                         ("scheduler", PStr "normal");
                                         ("denoise", PFloat (float_lit 10 (-1)));
                                         ("model", ref "1" 0);
                                         ("positive", ref "2" 0);
                                         ("negative", ref "5" 0);
                                         ("latent_image", ref "3" 0) ]) ]);
        ("5", PDict [ ("class_type", PStr "CLIPTextEncode");
                      ("inputs", PDict [ ("text", PStr EmptyString);
                                         ("clip", ref "1" 1) ]) ]);
        ("6", PDict [ ("class_type", PStr "VAEDecode");
                      ("inputs", PDict [ ("samples", ref "4" 0);
                                         ("vae", ref "1" 2) ]) ]);
        ("7", PDict [ ("class_type", PStr "SaveImage");
                      ("inputs", PDict [ ("filename_prefix", PStr "ComfyUI");
                                         ("images", ref "6" 0) ]) ]) ]) ].

(** [workflows.get(workflow_type, workflows["basic"])]: the default is looked
    up first, as Python evaluates the arguments before the call. *)
Definition generate_comfyui_workflow (self : ConfigGenerator)
    (workflow_type : string) : result pyval :=
  match dict_getitem "basic" workflows with
  | Return default => Return (dict_get_default workflow_type workflows default)
  | Raise e => Raise e
  end.

(** *** [generate_docker_compose] *)

Definition generate_docker_compose (self : ConfigGenerator) : pyval :=
  PDict
    [ ("version", PStr "3.8");
      ("services", PDict
        [ ("comfyui-service", PDict
            [ ("build", PDict [ ("context", PStr ".");
                                ("dockerfile", PStr "Dockerfile") ]);
              ("ports", PList [ PStr "8000:8000"; PStr "8188:8188" ]);
              ("volumes", PList [ PStr (work_dir self +:+ ":/app");
                                  PStr "/models:/models";
                                  PStr "./logs:/app/logs" ]);
              ("environment", PList [ PStr "PYTHONPATH=/app";
                                      PStr "CUDA_VISIBLE_DEVICES=0" ]);
              ("deploy", PDict
                [ ("resources", PDict
                    [ ("reservations", PDict
                        [ ("devices", PList
                            [ PDict [ ("driver", PStr "nvidia");
                                      ("count", PInt 1);
                                      ("capabilities", PList [ PStr "gpu" ]) ] ]) ]) ]) ]);
              ("restart", PStr "unless-stopped") ]);
          ("nginx", PDict
            [ ("image", PStr "nginx:alpine");
              ("ports", PList [ PStr "80:80"; PStr "443:443" ]);
              ("volumes", PList [ PStr "./nginx/nginx.conf:/etc/nginx/nginx.conf";
                                  PStr "./nginx/sites-available:/etc/nginx/sites-available";
                                  PStr "./nginx/ssl:/etc/nginx/ssl" ]);
              ("depends_on", PList [ PStr "comfyui-service" ]);
              ("restart", PStr "unless-stopped") ]) ]) ].

(** *** [generate_supervisor_config] *)

Definition venv_path (self : ConfigGenerator) : string :=
  "PATH=" +:+ dq +:+ work_dir self +:+ "/venv/bin:/usr/local/bin:/usr/bin:/bin" +:+ dq.

Definition generate_supervisor_config (self : ConfigGenerator) : pyval :=
  PDict
    [ ("unix_http_server", PDict
        [ ("file", PStr "/tmp/supervisor.sock");
          ("chmod", PStr "0700") ]);
      ("supervisord", PDict
        [ ("logfile", PStr (work_dir self +:+ "/logs/supervisord.log"));
          ("logfile_maxbytes", PStr "50MB");
          ("logfile_backups", PInt 10);
          ("loglevel", PStr "info");
          ("pidfile", PStr "/tmp/supervisord.pid");
          ("nodaemon", PBool false);
          ("minfds", PInt 1024);
          ("minprocs", PInt 200) ]);
      ("rpcinterface:supervisor", PDict
        [ ("supervisor.rpcinterface_factory",
           PStr "supervisor.rpcinterface:make_main_rpcinterface") ]);
      ("supervisorctl", PDict
        [ ("serverurl", PStr "unix:///tmp/supervisor.sock") ]);
      ("program:comfyui", PDict
        [ ("command", PStr (work_dir self +:+ "/start_comfyui.sh"));
          ("directory", PStr (comfyui_dir self));
          ("autostart", PBool true);
          ("autorestart", PBool true);
          ("stderr_logfile", PStr (work_dir self +:+ "/logs/comfyui.error.log"));
          ("stdout_logfile", PStr (work_dir self +:+ "/logs/comfyui.log"));
          ("environment", PStr (venv_path self)) ]);
      ("program:fastapi", PDict
        [ ("command", PStr (work_dir self +:+ "/start_fastapi.sh"));
          ("directory", PStr (work_dir self));
          ("autostart", PBool true);
          ("autorestart", PBool true);
          ("stderr_logfile", PStr (work_dir self +:+ "/logs/fastapi.error.log"));
          ("stdout_logfile", PStr (work_dir self +:+ "/logs/fastapi.log"));
          ("environment", PStr (venv_path self)) ]) ].

(** *** [generate_nginx_config] *)

(** [sep.join(ls)] *)
Fixpoint join (sep : string) (ls : list string) : string :=
  match ls with
  | [] => EmptyString
  | [l] => l
  | l :: ls' => l +:+ sep +:+ join sep ls'
  end.

(** The lines of the f-string of [generate_nginx_config], from the line break
    after its opening quotes to the one before its closing quotes, with
    [server_name] substituted. *)
Definition nginx_template_lines (server_name : string) : list string :=
    [ EmptyString;
      "server {";
      "    listen 80;";
      "    server_name " +:+ server_name +:+ ";";
      "    ";
      "    # 静态文件缓存";
      "    location ~* \.(jpg|jpeg|png|gif|ico|css|js)$ {";
      "        expires 1y;";
      "        add_header Cache-Control " +:+ dq +:+ "public, immutable" +:+ dq +:+ ";";
      "    }";
      "    ";
      "    # FastAPI 代理";
      "    location /api/ {";
      "        proxy_pass http://localhost:8000/;";
      "        proxy_set_header Host $host;";
      "        proxy_set_header X-Real-IP $remote_addr;";
      "        proxy_set_header X-Forwarded-For $proxy_add_x_forwarded_for;";
      "        proxy_set_header X-Forwarded-Proto $scheme;";
      "        ";
      "        # WebSocket 支持";
      "        proxy_http_version 1.1;";
      "        proxy_set_header Upgrade $http_upgrade;";
      "        proxy_set_header Connection " +:+ dq +:+ "upgrade" +:+ dq +:+ ";";
      "        ";
      "        # 超时设置";
      "        proxy_connect_timeout 60s;";
      "        proxy_send_timeout 60s;";
      "        proxy_read_timeout 60s;";
      "    }";
      "    ";
      "    # ComfyUI 代理";
      "    location /comfyui/ {";
      "        proxy_pass http://localhost:8188/;";
      "        proxy_set_header Host $host;";
      "        proxy_set_header X-Real-IP $remote_addr;";
      "        proxy_set_header X-Forwarded-For $proxy_add_x_forwarded_for;";
      "        proxy_set_header X-Forwarded-Proto $scheme;";
      "        ";
      "        # WebSocket 支持";
      "        proxy_http_version 1.1;";
      "        proxy_set_header Upgrade $http_upgrade;";
      "        proxy_set_header Connection " +:+ dq +:+ "upgrade" +:+ dq +:+ ";";
      "        ";
      "        # 大文件上传支持";
      "        client_max_body_size 100M;";
      "        ";
      "        # 超时设置";
      "        proxy_connect_timeout 300s;";
      "        proxy_send_timeout 300s;";
      "        proxy_read_timeout 300s;";
      "    }";
      "    ";
      "    # WebSocket 直接代理";
      "    location /ws {";
      "        proxy_pass http://localhost:8188/ws;";
      "        proxy_http_version 1.1;";
      "        proxy_set_header Upgrade $http_upgrade;";
      "        proxy_set_header Connection " +:+ dq +:+ "upgrade" +:+ dq +:+ ";";
      "        proxy_set_header Host $host;";
      "        proxy_set_header X-Real-IP $remote_addr;";
      "        proxy_set_header X-Forwarded-For $proxy_add_x_forwarded_for;";
      "        proxy_set_header X-Forwarded-Proto $scheme;";
      "        ";
      "        # WebSocket 特定设置";
      "        proxy_buffering off;";
      "        proxy_cache off;";
      "    }";
      "    ";
      "    # 默认代理到 FastAPI";
      "    location / {";
      "        proxy_pass http://localhost:8000/;";
      "        proxy_set_header Host $host;";
      "        proxy_set_header X-Real-IP $remote_addr;";
      "        proxy_set_header X-Forwarded-For $proxy_add_x_forwarded_for;";
      "        proxy_set_header X-Forwarded-Proto $scheme;";
      "    }";
      "}";
      EmptyString ].

(** The ASCII characters [str.strip()] removes.  On a text of ASCII
    characters [py_strip] below is [strip()]; the white space beyond ASCII
    is not covered. *)
Definition is_space (c : ascii) : bool :=
  let n := N_of_ascii c in
  ((9 <=? n) && (n <=? 13) || (28 <=? n) && (n <=? 32))%N.

Fixpoint lstrip (s : string) : string :=
  match s with
  | EmptyString => EmptyString
  | String c r => if is_space c then lstrip r else s
  end.

Fixpoint rstrip (s : string) : string :=
  match s with
  | EmptyString => EmptyString
  | String c r =>
      match rstrip r with
      | EmptyString => if is_space c then EmptyString else String c EmptyString
      | r' => String c r'
      end
  end.

(** [s.strip()] *)
Definition py_strip (s : string) : string := rstrip (lstrip s).

(** Truth value of an [Optional[str]]: [None] and the empty string are false. *)
Definition truthy (o : option string) : bool :=
  match o with
  | Some (String _ _) => true
  | _ => false
  end.

Definition generate_nginx_config (self : ConfigGenerator) (domain : option string) : string :=
  let server_name := if truthy domain then default EmptyString domain else "_" in
  let config := join nl (nginx_template_lines server_name) in
  py_strip config.

(** [s.split(sep)] for a one-character separator. *)
Fixpoint split_on (sep : ascii) (s : string) : list string :=
  match s with
  | EmptyString => [EmptyString]
  | String c r =>
      if Ascii.eqb c sep then EmptyString :: split_on sep r
      else match split_on sep r with
           | w :: ws => String c w :: ws
           | [] => [String c EmptyString]
           end
  end.

Definition newline : ascii := ascii_of_nat 10.

(** The lines of a text. *)
Definition lines (s : string) : list string := split_on newline s.

(** *** Paths *)

Definition is_empty (s : string) : bool :=
  match s with
  | EmptyString => true
  | String _ _ => false
  end.

Definition starts_with_slash (s : string) : bool :=
  match s with
  | String c _ => Ascii.eqb c "/"
  | EmptyString => false
  end.

Fixpoint ends_with_slash (s : string) : bool :=
  match s with
  | EmptyString => false
  | String c EmptyString => Ascii.eqb c "/"
  | String _ r => ends_with_slash r
  end.

(** The root of a POSIX path: one slash, or two when the path starts with
    exactly two. *)
Definition path_root (s : string) : string :=
  match s with
  | String a r =>
      if Ascii.eqb a "/" then
        match r with
        | String b r' =>
            if Ascii.eqb b "/" && negb (starts_with_slash r') then "//" else "/"
        | EmptyString => "/"
        end
      else EmptyString
  | EmptyString => EmptyString
  end.

(** [str(Path(s))]: the root, then the components of [s] that are neither
    empty nor [.], joined by single slashes; [.] for the empty path. *)
Definition Path (s : string) : string :=
  let parts := filter (fun p => negb (is_empty p || String.eqb p "."))
                      (split_on "/" s) in
  let text := path_root s +:+ join "/" parts in
  if is_empty text then "." else text.

(** [os.path.join(a, b)] *)
Definition posix_join (a b : string) : string :=
  if starts_with_slash b then b
  else if is_empty a || ends_with_slash a then a +:+ b
  else a +:+ "/" +:+ b.

(** ** The outside world *)

(** A record of the module's [logger]. *)
Inductive log_record : Type :=
| LogInfo (msg : string)
| LogWarning (msg : string)
| LogError (msg : string) (e : exn).

(** A file, as the operating system identifies it: two paths may name the
    same file. *)
Definition inode : Type := positive.

(** Why [open(path, 'w')] refuses a path. *)
Inductive open_failure : Type :=
| NoSuchDirectory
| Denied
| BadPath
| OtherFailure.

(** The exception [open] raises for each refusal: [FileNotFoundError] for a
    missing directory, [PermissionError] for a denied permission,
    [ValueError] for a path that holds a null character, and [OSError] for
    the other errors of the system (the path names a directory, one of its
    components is no directory, a name is too long, ...). *)
Definition open_exn (r : open_failure) : exn :=
  match r with
  | NoSuchDirectory => FileNotFoundError
  | Denied => PermissionError
  | BadPath => ValueError
  | OtherFailure => OSError
  end.

Inductive open_outcome : Type :=
| Refused (r : open_failure)
| Opened (f : inode).

(** What the program can observe and change.  The file system is taken as
    the operating system presents it: [os_open path] is its answer to
    [open(path, 'w')], a refusal or the file the path names, and [entries]
    holds the content of the files that exist, so that a file which
    [os_open] names and [entries] lacks is created by the call.
    [free_space] is the free space of the device in bytes, [log] what the
    module's [logger] has recorded.  The answers of the system are taken
    not to change while the program runs: a file the program has made can
    be opened by it again. *)
Record world := mkWorld {
  os_open : string -> open_outcome;
  entries : gmap inode string;
  free_space : nat;
  log : list log_record
}.

(** Computations that read and change the world and may raise. *)
Definition M (A : Type) : Type := world -> result A * world.

#[global] Instance M_ret : MRet M := fun A a w => (Return a, w).
#[global] Instance M_bind : MBind M := fun A B f c w =>
  match c w with
  | (Return a, w') => f a w'
  | (Raise e, w') => (Raise e, w')
  end.

(** [try: body except <classes>: handler], [catches] telling which exceptions
    the clause names. *)
Definition try_except {A : Type} (body : M A) (catches : exn -> bool)
    (handler : exn -> M A) : M A := fun w =>
  match body w with
  | (Return a, w') => (Return a, w')
  | (Raise e, w') => if catches e then handler e w' else (Raise e, w')
  end.

Definition lift {A : Type} (r : result A) : M A := fun w => (r, w).

(** The world with one more log record. *)
Definition add_log (w : world) (r : log_record) : world :=
  mkWorld (os_open w) (entries w) (free_space w) (log w ++ [r]).

Definition logger (r : log_record) : M unit := fun w => (Return tt, add_log w r).

(** ** The constructor and its GPU probe *)

(** What running the probe command can do: the spawn fails with an error (a
    missing executable gives [FileNotFoundError]), or the process runs to
    completion with a return code and captured standard output. *)
Inductive process : Type :=
| SpawnFails (e : exn)
| Completed (returncode : Z) (stdout : string).

(** [subprocess.run(..., capture_output=True, text=True, check=True).stdout] *)
Definition subprocess_run_stdout (p : process) : result string :=
  match p with
  | SpawnFails e => Raise e
  | Completed rc out => if rc =? 0 then Return out else Raise (CalledProcessError rc)
  end.

Definition is_digit (c : ascii) : bool :=
  let n := N_of_ascii c in ((48 <=? n) && (n <=? 57))%N.

Definition digit_value (c : ascii) : Z := Z.of_N (N_of_ascii c) - 48.

(** The digits of [int(...)]: decimal digits, single underscores allowed
    between two digits. *)
Fixpoint int_digits (acc : Z) (after_digit : bool) (s : string) : option Z :=
  match s with
  | EmptyString => if after_digit then Some acc else None
  | String c r =>
      if is_digit c then int_digits (10 * acc + digit_value c) true r
      else if Ascii.eqb c "_" && after_digit then int_digits acc false r
      else None
  end.

(** The ASCII characters [int] skips around the digits: its white space
    is that of C, without the four separators that [strip()] removes. *)
Definition is_int_space (c : ascii) : bool :=
  let n := N_of_ascii c in
  ((9 <=? n) && (n <=? 13) || (n =? 32))%N.

Fixpoint int_lstrip (s : string) : string :=
  match s with
  | EmptyString => EmptyString
  | String c r => if is_int_space c then int_lstrip r else s
  end.

Fixpoint int_rstrip (s : string) : string :=
  match s with
  | EmptyString => EmptyString
  | String c r =>
      match int_rstrip r with
      | EmptyString => if is_int_space c then EmptyString else String c EmptyString
      | r' => String c r'
      end
  end.

(** [int(s)] on a text of ASCII characters of at most 4300 digits (beyond
    that length [int] may refuse the text); [None] is [ValueError]. *)
Definition py_int (s : string) : option Z :=
  match int_rstrip (int_lstrip s) with
  | String "+" r => int_digits 0 false r
  | String "-" r => Z.opp <$> int_digits 0 false r
  | t => int_digits 0 false t
  end.

Definition int_of_str (s : string) : result Z :=
  match py_int s with
  | Some z => Return z
  | None => Raise ValueError
  end.

(** [l[0]] *)
Definition first_item (l : list string) : result string :=
  match l with
  | x :: _ => Return x
  | [] => Raise IndexError
  end.

Definition probe_catches (e : exn) : bool :=
  match e with
  | CalledProcessError _ | FileNotFoundError | ValueError => true
  | _ => false
  end.

Definition _get_gpu_memory (nvidia_smi : process) : M Z :=
  try_except
    (stdout ← lift (subprocess_run_stdout nvidia_smi);
     line ← lift (first_item (split_on newline (py_strip stdout)));
     mib ← lift (int_of_str line);
     mret (mib `div` 1024))
    probe_catches
    (fun _ => logger (LogWarning "无法获取 GPU 内存信息，使用默认值");; mret 8).

(** [ConfigGenerator(work_dir, comfyui_dir)] *)
Definition __init__ (work_dir comfyui_dir : string) (nvidia_smi : process)
    : M ConfigGenerator :=
  gpu ← _get_gpu_memory nvidia_smi;
  mret (mkGenerator (Path work_dir) (Path comfyui_dir) gpu).

(** ** Serialisations *)

(** *** [json.dump(config, f, indent=2, ensure_ascii=False)] *)

Definition hex_digit (n : N) : ascii :=
  if (n <? 10)%N then ascii_of_N (48 + n) else ascii_of_N (87 + n).

(** The replacement of one character inside a JSON string: the quote, the
    backslash and the characters below U+0020 are escaped, every other
    character is written as it is. *)
Definition escape_char (c : ascii) : string :=
  let n := N_of_ascii c in
  if (n =? 34)%N then "\" +:+ dq
  else if (n =? 92)%N then "\\"
  else if (n =? 8)%N then "\b"
  else if (n =? 12)%N then "\f"
  else if (n =? 10)%N then "\n"
  else if (n =? 13)%N then "\r"
  else if (n =? 9)%N then "\t"
  else if (n <? 32)%N then
    "\u00" +:+ String (hex_digit (n / 16)) (String (hex_digit (n mod 16)) EmptyString)
  else String c EmptyString.

Fixpoint escape (s : string) : string :=
  match s with
  | EmptyString => EmptyString
  | String c r => escape_char c +:+ escape r
  end.

Definition encode_str (s : string) : string := dq +:+ escape s +:+ dq.

Fixpoint spaces (n : nat) : string :=
  match n with
  | O => EmptyString
  | S n' => String " " (spaces n')
  end.

(** A line break followed by the indentation of nesting level [lvl]. *)
Definition newline_indent (lvl : nat) : string := nl +:+ spaces (2 * lvl).

(** The text of a value at nesting level [lvl]. *)
Fixpoint encode (lvl : nat) (v : pyval) {struct v} : string :=
  match v with
  | PNone => "null"
  | PBool true => "true"
  | PBool false => "false"
  | PInt z => int_repr z
  | PFloat f => float_repr f
  | PStr s => encode_str s
  | PList [] => "[]"
  | PList l =>
      "[" +:+ newline_indent (S lvl) +:+
      join ("," +:+ newline_indent (S lvl)) (map (encode (S lvl)) l) +:+
      newline_indent lvl +:+ "]"
  | PDict [] => "{}"
  | PDict d =>
      "{" +:+ newline_indent (S lvl) +:+
      join ("," +:+ newline_indent (S lvl))
           (map (fun kv => encode_str (fst kv) +:+ ": " +:+ encode (S lvl) (snd kv)) d) +:+
      newline_indent lvl +:+ "}"
  end.

Definition json_dumps (config : pyval) : string := encode 0 config.

(** *** [str(config)] *)

Fixpoint contains (c : ascii) (s : string) : bool :=
  match s with
  | EmptyString => false
  | String c' r => Ascii.eqb c c' || contains c r
  end.

Definition apostrophe : ascii := ascii_of_nat 39.
Definition quote : ascii := ascii_of_nat 34.

Definition repr_char (q c : ascii) : string :=
  let n := N_of_ascii c in
  if Ascii.eqb c q || (n =? 92)%N then String "\" (String c EmptyString)
  else if (n =? 9)%N then "\t"
  else if (n =? 10)%N then "\n"
  else if (n =? 13)%N then "\r"
  else if (n <? 32)%N || (n =? 127)%N then
    "\x" +:+ String (hex_digit (n / 16)) (String (hex_digit (n mod 16)) EmptyString)
  else String c EmptyString.

(** [repr] of a [str] of ASCII characters: apostrophes around it, or quotes
    when it holds an apostrophe and no quote.  Bytes of multi-byte
    characters are copied, as [repr] does with the printable ones; the
    escapes of the characters beyond ASCII that are not printable are not
    covered. *)
Definition str_repr (s : string) : string :=
  let q := if contains apostrophe s && negb (contains quote s) then quote else apostrophe in
  String q ((fix go (t : string) : string :=
               match t with
               | EmptyString => String q EmptyString
               | String c r => repr_char q c +:+ go r
               end) s).

Fixpoint py_repr (v : pyval) {struct v} : string :=
  match v with
  | PNone => "None"
  | PBool true => "True"
  | PBool false => "False"
  | PInt z => int_repr z
  | PFloat f => float_repr f
  | PStr s => str_repr s
  | PList l => "[" +:+ join ", " (map py_repr l) +:+ "]"
  | PDict d =>
      "{" +:+ join ", " (map (fun kv => str_repr (fst kv) +:+ ": " +:+ py_repr (snd kv)) d)
          +:+ "}"
  end.

(** [str(v)], which is also what an f-string field [{v}] formats. *)
Definition py_str (v : pyval) : string :=
  match v with
  | PStr s => s
  | _ => py_repr v
  end.

(** ** [save_config] *)

(** *** UTF-8 *)

(** What a UTF-8 decoder expects next: the first byte of a character
    ([U0]), or one, two or three continuation bytes, the first of which is
    restricted after the lead bytes [E0], [ED], [F0] and [F4]. *)
Inductive utf8_state : Type := U0 | U1 | U2 | U3 | U2_E0 | U2_ED | U3_F0 | U3_F4.

Definition utf8_between (lo hi : N) (next : utf8_state) (n : N) : option utf8_state :=
  if ((lo <=? n) && (n <=? hi))%N then Some next else None.

Definition utf8_step (st : utf8_state) (c : ascii) : option utf8_state :=
  let n := N_of_ascii c in
  match st with
  | U0 =>
      if (n <? 128)%N then Some U0
      else if ((194 <=? n) && (n <=? 223))%N then Some U1
      else if (n =? 224)%N then Some U2_E0
      else if (n =? 237)%N then Some U2_ED
      else if ((225 <=? n) && (n <=? 239))%N then Some U2
      else if (n =? 240)%N then Some U3_F0
      else if ((241 <=? n) && (n <=? 243))%N then Some U3
      else if (n =? 244)%N then Some U3_F4
      else None
  | U1 => utf8_between 128 191 U0 n
  | U2 => utf8_between 128 191 U1 n
  | U3 => utf8_between 128 191 U2 n
  | U2_E0 => utf8_between 160 191 U1 n
  | U2_ED => utf8_between 128 159 U1 n
  | U3_F0 => utf8_between 144 191 U2 n
  | U3_F4 => utf8_between 128 143 U2 n
  end.

Fixpoint utf8_run (st : utf8_state) (s : string) : option utf8_state :=
  match s with
  | EmptyString => Some st
  | String c r =>
      match utf8_step st c with
      | Some st' => utf8_run st' r
      | None => None
      end
  end.

(** The strings that are the UTF-8 text of a [str] without lone
    surrogates: the ones [encoding='utf-8'] can write. *)
Definition utf8_valid (s : string) : bool :=
  match utf8_run U0 s with
  | Some U0 => true
  | _ => false
  end.

(** *** Files *)

Definition set_entries (w : world) (es : gmap inode string) (space : nat) : world :=
  mkWorld (os_open w) es space (log w).

(** [open(path, 'w', encoding='utf-8')]: when the system opens the path, the
    file it names is created or emptied, and the space its old content took
    is free again. *)
Definition open_w (path : string) : M inode := fun w =>
  match os_open w path with
  | Refused r => (Raise (open_exn r), w)
  | Opened f =>
      (Return f,
       set_entries w (<[f := EmptyString]> (entries w))
                   (free_space w + String.length (default EmptyString (entries w !! f))))
  end.

(** [f.write(s)] on the open file [f].  A text that cannot be encoded
    raises [UnicodeEncodeError], a [ValueError], and nothing of it is
    written.  Otherwise the text is appended; when the device runs out of
    space, what fits is kept and the call raises [OSError]. *)
Definition write (f : inode) (s : string) : M unit := fun w =>
  let old := default EmptyString (entries w !! f) in
  let len := String.length s in
  if negb (utf8_valid s) then (Raise ValueError, w)
  else if (len <=? free_space w)%nat
  then (Return tt, set_entries w (<[f := old +:+ s]> (entries w)) (free_space w - len))
  else (Raise OSError,
        set_entries w (<[f := old +:+ String.substring 0 (free_space w) s]> (entries w))
                    0%nat).

(** [config.items()] *)
Definition items (config : pyval) : result pydict :=
  match config with
  | PDict d => Return d
  | _ => Raise AttributeError
  end.

(** [isinstance(values, dict)] *)
Definition is_dict (v : pyval) : bool :=
  match v with
  | PDict _ => true
  | _ => false
  end.

(** [for x in l: body(x)] *)
Fixpoint for_each {A : Type} (l : list A) (body : A -> M unit) : M unit :=
  match l with
  | [] => mret tt
  | x :: l' => body x;; for_each l' body
  end.

Definition write_ini (path : string) (config : pyval) : M unit :=
  f ← open_w path;
  sections ← lift (items config);
  for_each sections (fun sv =>
    write f ("[" +:+ fst sv +:+ "]" +:+ nl);;
    (if is_dict (snd sv)
     then kvs ← lift (items (snd sv));
          for_each kvs (fun kv => write f (fst kv +:+ " = " +:+ py_str (snd kv) +:+ nl))
     else mret tt);;
    write f nl).

(** Every exception the body can raise derives from [Exception], but for
    [KeyboardInterrupt]. *)
Definition is_Exception (e : exn) : bool :=
  match e with
  | KeyboardInterrupt => false
  | _ => true
  end.

(** [self.work_dir / filename], in its string form. *)
Definition filepath (self : ConfigGenerator) (filename : string) : string :=
  Path (posix_join (work_dir self) filename).

(** The statements of the [try] block up to the write, on the path
    [self.work_dir / filename].  [json.dump] hands its text to [f.write]. *)
Definition save_body (config : pyval) (path format_type : string) : M unit :=
  if String.eqb format_type "json" then
    f ← open_w path;
    write f (json_dumps config)
  else if String.eqb format_type "ini" then
    write_ini path config
  else if String.eqb format_type "text" then
    f ← open_w path;
    write f (py_str config)
  else mret tt.

Definition saved_message (self : ConfigGenerator) (filename : string) : log_record :=
  LogInfo ("配置已保存: " +:+ filepath self filename).

Definition failed_message (e : exn) : log_record := LogError "保存配置失败: " e.

Definition save_config (self : ConfigGenerator) (config : pyval) (filename : string)
    (format_type : string) : M bool :=
  let path := filepath self filename in
  try_except
    (save_body config path format_type;;
     logger (saved_message self filename);;
     mret true)
    is_Exception
    (fun e => logger (failed_message e);; mret false).

(** [s] without the prefix [p], when it has it. *)
Fixpoint strip_prefix (p s : string) : option string :=
  match p, s with
  | EmptyString, _ => Some s
  | String a p', String b s' => if Ascii.eqb a b then strip_prefix p' s' else None
  | String _ _, EmptyString => None
  end.

(** *** [json.loads] *)

(** The white space between JSON tokens. *)
Definition is_json_ws (c : ascii) : bool :=
  let n := N_of_ascii c in
  ((n =? 32) || (n =? 9) || (n =? 10) || (n =? 13))%N.

Fixpoint skip_ws (s : string) : string :=
  match s with
  | EmptyString => EmptyString
  | String c r => if is_json_ws c then skip_ws r else s
  end.

Definition hex_value (c : ascii) : option N :=
  let n := N_of_ascii c in
  if ((48 <=? n) && (n <=? 57))%N then Some (n - 48)%N
  else if ((97 <=? n) && (n <=? 102))%N then Some (n - 87)%N
  else if ((65 <=? n) && (n <=? 70))%N then Some (n - 55)%N
  else None.

(** The code point of the four hexadecimal digits of a [\u] escape. *)
Definition hex4 (a b c d : ascii) : option N :=
  x ← hex_value a; y ← hex_value b; z ← hex_value c; t ← hex_value d;
  Some (((x * 16 + y) * 16 + z) * 16 + t)%N.

Definition byte_string (n : N) : string := String (ascii_of_N n) EmptyString.

(** The UTF-8 bytes of a code point that is not a surrogate. *)
Definition utf8 (cp : N) : string :=
  (if cp <? 128 then byte_string cp
   else if cp <? 2048 then
     byte_string (192 + cp / 64) +:+ byte_string (128 + cp mod 64)
   else if cp <? 65536 then
     byte_string (224 + cp / 4096) +:+ byte_string (128 + (cp / 64) mod 64)
       +:+ byte_string (128 + cp mod 64)
   else
     byte_string (240 + cp / 262144) +:+ byte_string (128 + (cp / 4096) mod 64)
       +:+ byte_string (128 + (cp / 64) mod 64) +:+ byte_string (128 + cp mod 64))%N.

Definition is_high_surrogate (cp : N) : bool := ((55296 <=? cp) && (cp <=? 56319))%N.
Definition is_low_surrogate (cp : N) : bool := ((56320 <=? cp) && (cp <=? 57343))%N.

(** The character a one-letter escape stands for. *)
Definition unescape (e : ascii) : option string :=
  let n := N_of_ascii e in
  (if n =? 34 then Some dq
   else if n =? 92 then Some "\"
   else if n =? 47 then Some "/"
   else if n =? 98 then Some (byte_string 8)
   else if n =? 102 then Some (byte_string 12)
   else if n =? 110 then Some (byte_string 10)
   else if n =? 114 then Some (byte_string 13)
   else if n =? 116 then Some (byte_string 9)
   else None)%N.

Definition prepend (p : string) (o : option (string * string)) : option (string * string) :=
  match o with
  | Some (s, r) => Some (p +:+ s, r)
  | None => None
  end.

(** The string whose opening quote was just read: its content and what
    follows the closing quote.  Characters below U+0020 are refused, as in
    strict mode; a surrogate escape must come as a high-low pair, a lone one
    having no place in a string of bytes. *)
Fixpoint scanstring (s : string) : option (string * string) :=
  match s with
  | EmptyString => None
  | String c r =>
      if Ascii.eqb c quote then Some (EmptyString, r)
      else if Ascii.eqb c "\" then
        match r with
        | EmptyString => None
        | String e r1 =>
            if Ascii.eqb e "u" then
              match r1 with
              | String h1 (String h2 (String h3 (String h4 r2))) =>
                  match hex4 h1 h2 h3 h4 with
                  | None => None
                  | Some cp =>
                      if is_high_surrogate cp then
                        match r2 with
                        | String b (String u (String l1 (String l2 (String l3 (String l4 r3))))) =>
                            if Ascii.eqb b "\" && Ascii.eqb u "u" then
                              match hex4 l1 l2 l3 l4 with
                              | None => None
                              | Some lo =>
                                  if is_low_surrogate lo then
                                    prepend (utf8 (65536 + (cp - 55296) * 1024 + (lo - 56320))%N)
                                            (scanstring r3)
                                  else None
                              end
                            else None
                        | _ => None
                        end
                      else if is_low_surrogate cp then None
                      else prepend (utf8 cp) (scanstring r2)
                  end
              | _ => None
              end
            else match unescape e with
                 | Some ch => prepend ch (scanstring r1)
                 | None => None
                 end
        end
      else if (N_of_ascii c <? 32)%N then None
      else prepend (String c EmptyString) (scanstring r)
  end.

(** The characters a JSON number is made of. *)
Definition is_number_char (c : ascii) : bool :=
  let n := N_of_ascii c in
  is_digit c || ((n =? 45) || (n =? 43) || (n =? 46) || (n =? 101) || (n =? 69))%N.

Fixpoint span (p : ascii -> bool) (s : string) : string * string :=
  match s with
  | EmptyString => (EmptyString, EmptyString)
  | String c r =>
      if p c then let '(t, r') := span p r in (String c t, r')
      else (EmptyString, s)
  end.

Fixpoint digits_value (acc : Z) (s : string) : Z :=
  match s with
  | EmptyString => acc
  | String c r => digits_value (10 * acc + digit_value c) r
  end.

(** A leading [-]. *)
Definition take_minus (s : string) : bool * string :=
  match s with
  | String c r => if Ascii.eqb c "-" then (true, r) else (false, s)
  | EmptyString => (false, s)
  end.

(** The sign of an exponent. *)
Definition take_sign (s : string) : bool * string :=
  match s with
  | String c r => if Ascii.eqb c "-" then (true, r)
                  else if Ascii.eqb c "+" then (false, r) else (false, s)
  | EmptyString => (false, s)
  end.

(** The integer part of a number: [0], or digits that start with none. *)
Definition integer_ok (ip : string) : bool :=
  match ip with
  | EmptyString => false
  | String c r => negb (Ascii.eqb c "0") || is_empty r
  end.

(** The value of a whole number token: an optional [-], an integer part, an
    optional fraction of a point and digits, an optional exponent of [e] or
    [E], a sign and digits.  It is an [int] without fraction and exponent, a
    [float] otherwise. *)
Definition number_of_text (t : string) : option pyval :=
  let '(neg, t1) := take_minus t in
  let '(ip, t2) := span is_digit t1 in
  if negb (integer_ok ip) then None else
  match t2 with
  | EmptyString => Some (PInt (if neg then - digits_value 0 ip else digits_value 0 ip))
  | String c r =>
      let '(fp, t3) := if Ascii.eqb c "." then span is_digit r else (EmptyString, t2) in
      if Ascii.eqb c "." && is_empty fp then None else
      let mantissa := digits_value 0 (ip +:+ fp) in
      let shift := Z.of_nat (String.length fp) in
      match t3 with
      | EmptyString => PFloat <$> float_of_decimal neg mantissa (- shift)
      | String e r' =>
          if Ascii.eqb e "e" || Ascii.eqb e "E" then
            let '(eneg, t4) := take_sign r' in
            let '(ed, t5) := span is_digit t4 in
            if is_empty ed || negb (is_empty t5) then None else
            let ex := digits_value 0 ed in
            PFloat <$> float_of_decimal neg mantissa ((if eneg then - ex else ex) - shift)
          else None
      end
  end.

(** [dict(pairs)]: a key that comes again keeps its place and takes the new
    value. *)
Fixpoint dict_set (k : string) (v : pyval) (d : pydict) : pydict :=
  match d with
  | [] => [(k, v)]
  | (k', v') :: d' => if String.eqb k k' then (k, v) :: d' else (k', v') :: dict_set k v d'
  end.

Definition py_dict (pairs : pydict) : pydict :=
  fold_left (fun d kv => dict_set (fst kv) (snd kv) d) pairs [].

Definition literal (word : string) (v : pyval) (s : string) : option (pyval * string) :=
  (fun r => (v, r)) <$> strip_prefix word s.

(** The value at the head of [s] and the text after it.  [fuel] bounds the
    number of values, elements and members read.  The constants [NaN] and
    [Infinity], which are no finite floats, are refused. *)
Fixpoint parse_value (fuel : nat) (s : string) : option (pyval * string) :=
  match fuel with
  | O => None
  | S n =>
      match s with
      | EmptyString => None
      | String c r =>
          if Ascii.eqb c quote then
            '(t, r1) ← scanstring r; Some (PStr t, r1)
          else if Ascii.eqb c "{" then
            match skip_ws r with
            | EmptyString => None
            | String c1 r1 =>
                if Ascii.eqb c1 "}" then Some (PDict [], r1)
                else if Ascii.eqb c1 quote then
                  '(d, r2) ← parse_members n r1; Some (PDict (py_dict d), r2)
                else None
            end
          else if Ascii.eqb c "[" then
            match skip_ws r with
            | EmptyString => None
            | String c1 r1 =>
                if Ascii.eqb c1 "]" then Some (PList [], r1)
                else '(l, r2) ← parse_elements n (String c1 r1); Some (PList l, r2)
            end
          else if Ascii.eqb c "n" then literal "null" PNone s
          else if Ascii.eqb c "t" then literal "true" (PBool true) s
          else if Ascii.eqb c "f" then literal "false" (PBool false) s
          else
            let '(t, r1) := span is_number_char s in
            v ← number_of_text t; Some (v, r1)
      end
  end
with parse_elements (fuel : nat) (s : string) : option (list pyval * string) :=
  match fuel with
  | O => None
  | S n =>
      '(v, r) ← parse_value n s;
      match skip_ws r with
      | EmptyString => None
      | String c r1 =>
          if Ascii.eqb c "]" then Some ([v], r1)
          else if Ascii.eqb c "," then
            '(l, r2) ← parse_elements n (skip_ws r1); Some (v :: l, r2)
          else None
      end
  end
with parse_members (fuel : nat) (s : string) : option (pydict * string) :=
  match fuel with
  | O => None
  | S n =>
      '(k, r) ← scanstring s;
      match skip_ws r with
      | EmptyString => None
      | String c r1 =>
          if Ascii.eqb c ":" then
            '(v, r2) ← parse_value n (skip_ws r1);
            match skip_ws r2 with
            | EmptyString => None
            | String c2 r3 =>
                if Ascii.eqb c2 "}" then Some ([(k, v)], r3)
                else if Ascii.eqb c2 "," then
                  match skip_ws r3 with
                  | EmptyString => None
                  | String c3 r4 =>
                      if Ascii.eqb c3 quote then
                        '(d, r5) ← parse_members n r4; Some ((k, v) :: d, r5)
                      else None
                  end
                else None
            end
          else None
      end
  end.

(** [json.loads(s)]: one value, white space around it and nothing else.
    [None] is a [JSONDecodeError]. *)
Definition json_loads (s : string) : option pyval :=
  '(v, r) ← parse_value (S (String.length s)) (skip_ws s);
  if is_empty (skip_ws r) then Some v else None.

(** *** What the round trip needs of a document *)

Fixpoint all_chars (p : ascii -> bool) (s : string) : bool :=
  match s with
  | EmptyString => true
  | String c r => p c && all_chars p r
  end.

(** The text of a number is made of number characters and reads back as the
    number. *)
Definition number_ok (text : string) (v : pyval) : bool :=
  all_chars is_number_char text &&
  match number_of_text text, v with
  | Some (PInt a), PInt b => a =? b
  | Some (PFloat a), PFloat b => float_eqb a b
  | _, _ => false
  end.

Fixpoint keys_distinct (d : pydict) : bool :=
  match d with
  | [] => true
  | kv :: d' => negb (existsb (String.eqb (fst kv)) (dict_keys d')) && keys_distinct d'
  end.

(** A document is well formed when no dict has a key twice, which Python
    dicts never have, and each of its floats reads back from its text. *)
Fixpoint well_formed (v : pyval) : bool :=
  match v with
  | PFloat f => number_ok (float_repr f) v
  | PList l => forallb well_formed l
  | PDict d => keys_distinct d && forallb (fun kv => well_formed (snd kv)) d
  | _ => true
  end.

(** The fuel [parse_value] uses on the text of a document. *)
Fixpoint need (v : pyval) : nat :=
  match v with
  | PList l => S (list_sum (map (fun x => S (need x)) l))
  | PDict d => S (list_sum (map (fun kv => S (need (snd kv))) d))
  | _ => 1
  end.

(** What may follow a number: the end of the text or a character that is
    not part of a number. *)
Definition delimited (rest : string) : bool :=
  match rest with
  | EmptyString => true
  | String c _ => negb (is_number_char c)
  end.

(** ** Notions of the statements *)

Definition list_items (o : option pyval) : list pyval :=
  match o with
  | Some (PList l) => l
  | _ => []
  end.

Definition dict_items (o : option pyval) : pydict :=
  match o with
  | Some (PDict d) => d
  | _ => []
  end.

(** The shape of the manifest: two services; the application service with a
    build context, two published ports, three volume mounts among which the
    working directory and the shared model directory, two environment
    variables, one reserved GPU device and the restart policy [policy]; the
    proxy service with its image, two published ports, three configuration
    mounts, a dependency on the application service and the same policy. *)
Definition compose_shape (policy : string) (self : ConfigGenerator) : Prop :=
  let doc := generate_docker_compose self in
  let app := field_path ["services"; "comfyui-service"] doc in
  let proxy := field_path ["services"; "nginx"] doc in
  dict_keys (dict_items (field "services" doc)) = ["comfyui-service"; "nginx"] /\
  (app ≫= field_path ["build"; "context"]) = Some (PStr ".") /\
  length (list_items (app ≫= field "ports")) = 2%nat /\
  length (list_items (app ≫= field "volumes")) = 3%nat /\
  In (PStr (work_dir self +:+ ":/app")) (list_items (app ≫= field "volumes")) /\
  In (PStr "/models:/models") (list_items (app ≫= field "volumes")) /\
  length (list_items (app ≫= field "environment")) = 2%nat /\
  (exists device,
     (app ≫= field_path ["deploy"; "resources"; "reservations"; "devices"])
       = Some (PList [device]) /\
     field "count" device = Some (PInt 1) /\
     field "capabilities" device = Some (PList [PStr "gpu"])) /\
  (app ≫= field "restart") = Some (PStr policy) /\
  (proxy ≫= field "image") = Some (PStr "nginx:alpine") /\
  length (list_items (proxy ≫= field "ports")) = 2%nat /\
  length (list_items (proxy ≫= field "volumes")) = 3%nat /\
  (proxy ≫= field "depends_on") = Some (PList [PStr "comfyui-service"]) /\
  (proxy ≫= field "restart") = Some (PStr policy).

(** The managed programs of a supervisor document: its sections named
    [program:<name>], by name. *)
Definition program_sections (doc : pyval) : pydict :=
  omap (fun kv => (fun name => (name, snd kv)) <$> strip_prefix "program:" (fst kv))
       (dict_items (Some doc)).

Definition distinct_logs (section : pyval) : Prop :=
  exists out err,
    field "stdout_logfile" section = Some (PStr out) /\
    field "stderr_logfile" section = Some (PStr err) /\
    out <> err.

(** The first line of the probe's output, as [_get_gpu_memory] reads it. *)
Definition first_line (stdout : string) : string :=
  hd EmptyString (split_on newline (py_strip stdout)).

(** A text of ASCII characters, which is what the probe command prints. *)
Definition ascii_text (s : string) : bool :=
  all_chars (fun c => (N_of_ascii c <? 128)%N) s.

(** The three ways the probe fails: the command is missing, it exits with a
    non-zero code, or the first line of the text it prints is not an
    integer. *)
Definition probe_fails (nvidia_smi : process) : Prop :=
  match nvidia_smi with
  | SpawnFails e => e = FileNotFoundError
  | Completed rc stdout =>
      rc <> 0 \/ (ascii_text stdout = true /\ py_int (first_line stdout) = None)
  end.

Definition probe_warning : log_record := LogWarning "无法获取 GPU 内存信息，使用默认值".

(** A system with room where every path opens a file of its own and no
    file exists yet. *)
Definition empty_world : world :=
  mkWorld (fun path => Opened (countable.encode path)) ∅ 4096 [].

(** The lines of the configuration once [strip()] has dropped the line breaks
    at both ends of the f-string. *)
Definition nginx_lines (server_name : string) : list string :=
  removelast (tl (nginx_template_lines server_name)).

Definition server_name_line (server_name : string) : string :=
  "    server_name " +:+ server_name +:+ ";".

(** The [domain] arguments the property is about: no domain at all, or a
    non-empty name on one line. *)
Definition domain_ok (domain : option string) : Prop :=
  match domain with
  | None => True
  | Some d => d <> EmptyString /\ contains newline d = false
  end.

(** The name such a call asks for: the wildcard without a domain. *)
Definition requested_name (domain : option string) : string :=
  match domain with
  | None => "_"
  | Some d => d
  end.

(** A computation is guarded when every exception it raises derives from
    [Exception], so that the handler of [save_config] takes it. *)
Definition guarded {A : Type} (c : M A) : Prop :=
  forall w e w', c w = (Raise e, w') -> is_Exception e = true.

(** The three serialisations [save_config] knows. *)
Definition recognised (format_type : string) : bool :=
  String.eqb format_type "json" || String.eqb format_type "ini"
  || String.eqb format_type "text".

Definition default_generator : ConfigGenerator :=
  mkGenerator "/my-hybrid-service" "/workspace/ComfyUI" 8.

(** A system that refuses every path for lack of permission. *)
Definition readonly_world : world := mkWorld (fun _ => Refused Denied) ∅ 4096 [].

(** The same system, but for one file of the working directory that is
    there and that the process may overwrite. *)
Definition readonly_world_with_file : world :=
  mkWorld (fun path => if String.eqb path "/my-hybrid-service/gpu_optimization.json"
                       then Opened 1%positive else Refused Denied)
          {[ 1%positive := "{}" ]} 4096 [].

(** The same system, but for one path outside the working directory, where
    a new file can be made. *)
Definition readonly_world_with_tmp : world :=
  mkWorld (fun path => if String.eqb path "/tmp/out.json"
                       then Opened 1%positive else Refused Denied)
          ∅ 4096 [].

(** A filename without directory part: with no slash in it, the path
    [dir / name] stays in the directory [dir]. *)
Definition plain_name (name : string) : bool := negb (contains "/" name).

(** A directory lacks write permission when no entry can be made in it: a
    path [dir / name] that stays in the directory opens only a file that is
    there already. *)
Definition lacks_write_permission (w : world) (dir : string) : Prop :=
  forall name f, plain_name name = true ->
    os_open w (Path (posix_join dir name)) = Opened f -> entries w !! f <> None.

(** What is expected of a working directory without write permission:
    [save_config] returns false there. *)
Definition returns_false_when_readonly (self : ConfigGenerator) (config : pyval)
    (filename format_type : string) (w : world) : Prop :=
  lacks_write_permission w (work_dir self) ->
  fst (save_config self config filename format_type w) = Return false.

(** The room the device has for the file [f] once [open(..., 'w')] has
    emptied it. *)
Definition space_after_open (w : world) (f : inode) : nat :=
  (free_space w + String.length (default EmptyString (entries w !! f)))%nat.

(** The text of a well-formed document starts with a character that is no
    white space and no closing bracket. *)
Definition opens_value (c : ascii) : bool :=
  negb (is_json_ws c) && negb (Ascii.eqb c "]").

(** [parses v]: the text of [v], at any nesting level and followed by any
    delimited text, reads back as [v] and leaves what follows. *)
Definition parses (v : pyval) : Prop :=
  forall (lvl fuel : nat) (rest : string),
    (need v <= fuel)%nat -> delimited rest = true ->
    parse_value fuel (encode lvl v +:+ rest) = Some (v, rest).

Definition item_separator (lvl : nat) : string := "," +:+ newline_indent (S lvl).

Definition member (lvl : nat) (kv : string * pyval) : string :=
  encode_str (fst kv) +:+ ": " +:+ encode (S lvl) (snd kv).

(** *** Induction on documents *)

Section PyvalInduction.
Variable P : pyval -> Prop.
Hypothesis P_none : P PNone.
Hypothesis P_bool : forall b, P (PBool b).
Hypothesis P_int : forall z, P (PInt z).
Hypothesis P_float : forall f, P (PFloat f).
Hypothesis P_str : forall s, P (PStr s).
Hypothesis P_list : forall l, List.Forall P l -> P (PList l).
Hypothesis P_dict : forall d, List.Forall (fun kv => P (snd kv)) d -> P (PDict d).

Fixpoint pyval_nested_ind (v : pyval) : P v :=
  match v with
  | PNone => P_none
  | PBool b => P_bool b
  | PInt z => P_int z
  | PFloat f => P_float f
  | PStr s => P_str s
  | PList l =>
      P_list l ((fix go (l : list pyval) : List.Forall P l :=
                   match l with
                   | [] => List.Forall_nil P
                   | x :: l' => @List.Forall_cons _ P x l' (pyval_nested_ind x) (go l')
                   end) l)
  | PDict d =>
      P_dict d ((fix go (d : pydict) : List.Forall (fun kv => P (snd kv)) d :=
                   match d with
                   | [] => List.Forall_nil _
                   | kv :: d' =>
                       @List.Forall_cons _ (fun kv => P (snd kv)) kv d'
                         (pyval_nested_ind (snd kv)) (go d')
                   end) d)
  end.
End PyvalInduction.

(** ** The command line *)

(** The arguments [argparse] hands to [main]. *)
Record Namespace := mkNamespace {
  args_work_dir : string;
  args_comfyui_dir : string;
  args_config_type : string;
  args_output : option string;
  args_domain : option string;
  args_workflow_type : string
}.

(** [value or fallback] for an optional string. *)
Definition or_else (value : option string) (fallback : string) : string :=
  if truthy value then default EmptyString value else fallback.

(** The line [main] prints last. *)
Definition completed (config_type : string) : string :=
  "✅ " +:+ config_type +:+ " 配置生成完成".

Section Main.

(** The text [yaml.dump(config, f, default_flow_style=False)] writes.  PyYAML
    is no part of the repository: its text is a parameter, the module is
    taken to be installed and the encoding of the locale to be UTF-8. *)
Variable yaml_dump : pyval -> string.

(** [main()], from the parsed arguments on.  Its value is the line it prints
    on standard output before it returns. *)
Definition main (args : Namespace) (nvidia_smi : process) : M string :=
  generator ← __init__ (args_work_dir args) (args_comfyui_dir args) nvidia_smi;
  (if String.eqb (args_config_type args) "supervisor" then
     let config := generate_supervisor_config generator in
     let output_file := or_else (args_output args) "supervisord.conf" in
     save_config generator config output_file "ini";; mret tt
   else if String.eqb (args_config_type args) "nginx" then
     let config_text := generate_nginx_config generator (args_domain args) in
     let output_file := or_else (args_output args) "nginx_site.conf" in
     save_config generator (PStr config_text) output_file "text";; mret tt
   else if String.eqb (args_config_type args) "docker" then
     let config := generate_docker_compose generator in
     let output_file := or_else (args_output args) "docker-compose.yml" in
     f ← open_w (filepath generator output_file);
     write f (yaml_dump config);;
     logger (LogInfo ("Docker Compose配置已保存: " +:+ output_file))
   else if String.eqb (args_config_type args) "workflow" then
     config ← lift (generate_comfyui_workflow generator (args_workflow_type args));
     let output_file :=
       or_else (args_output args) ("workflow_" +:+ args_workflow_type args +:+ ".json") in
     save_config generator config output_file "json";; mret tt
   else if String.eqb (args_config_type args) "optimization" then
     let config := optimize_for_gpu_memory generator in
     let output_file := or_else (args_output args) "gpu_optimization.json" in
     save_config generator config output_file "json";; mret tt
   else mret tt);;
  mret (completed (args_config_type args)).

End Main.

(** ** What [save_config] writes *)

Fixpoint concat_strings (l : list string) : string :=
  match l with
  | [] => EmptyString
  | s :: l' => s +:+ concat_strings l'
  end.

(** One [key = value] line of the INI layout. *)
Definition ini_line (kv : string * pyval) : string :=
  fst kv +:+ " = " +:+ py_str (snd kv) +:+ nl.

(** One section of the INI layout: the header, a line for each key when the
    value is a dict, and an empty line. *)
Definition ini_section (sv : string * pyval) : string :=
  ("[" +:+ fst sv +:+ "]" +:+ nl) +:+
  match snd sv with
  | PDict kvs => concat_strings (map ini_line kvs)
  | _ => EmptyString
  end +:+ nl.

Definition ini_text (d : pydict) : string := concat_strings (map ini_section d).

(** The text of a document in a format, when the format is known and the
    document can be written in it. *)
Definition serialise (format_type : string) (config : pyval) : option string :=
  if String.eqb format_type "json" then Some (json_dumps config)
  else if String.eqb format_type "ini" then
    match config with
    | PDict d => Some (ini_text d)
    | _ => None
    end
  else if String.eqb format_type "text" then Some (py_str config)
  else None.

(** Every text the INI writer hands to [write] can be encoded. *)
Definition ini_valid (d : pydict) : bool :=
  forallb (fun sv =>
             utf8_valid ("[" +:+ fst sv +:+ "]" +:+ nl) &&
             match snd sv with
             | PDict kvs => forallb (fun kv => utf8_valid (ini_line kv)) kvs
             | _ => true
             end) d.

(** Every text the writer of a format hands to [write] can be encoded. *)
Definition encodable (format_type : string) (config : pyval) : bool :=
  if String.eqb format_type "json" then utf8_valid (json_dumps config)
  else if String.eqb format_type "ini" then
    match config with
    | PDict d => ini_valid d
    | _ => true
    end
  else if String.eqb format_type "text" then utf8_valid (py_str config)
  else true.

(** The file [f] is there. *)
Definition file_open (w : world) (f : inode) : Prop := entries w !! f <> None.

(** [writes f c text]: on a file that is there, [c] does what one [write]
    of the text [text] does, and the text can be encoded. *)
Definition writes (f : inode) (c : M unit) (text : string) : Prop :=
  utf8_valid text = true /\ forall w, file_open w f -> c w = write f text w.

(** [keeps f c]: [c] leaves the answers of the system, the log and every
    file but [f] as they are, and does not remove [f]. *)
Definition keeps {A : Type} (f : inode) (c : M A) : Prop :=
  forall w r w', c w = (r, w') ->
    os_open w' = os_open w /\ log w' = log w /\
    (file_open w f -> file_open w' f) /\
    forall other, other <> f -> entries w' !! other = entries w !! other.

(** [keeps_but path c]: the same, the file left out being the one [path]
    names. *)
Definition keeps_but {A : Type} (path : string) (c : M A) : Prop :=
  forall w r w', c w = (r, w') ->
    os_open w' = os_open w /\ log w' = log w /\
    forall other, os_open w path <> Opened other ->
                  entries w' !! other = entries w !! other.

(** The world after a write that went through: the file holds the text,
    the device has that much less room, the saved message is logged. *)
Definition saved_world (self : ConfigGenerator) (filename : string) (f : inode)
    (text : string) (w : world) : world :=
  mkWorld (os_open w)
          (<[f := text]> (entries w))
          (space_after_open w f - String.length text)
          (log w ++ [saved_message self filename]).

(** What follows [open] in each writer, on the file it returned. *)
Definition after_open (config : pyval) (format_type : string) (f : inode) : M unit :=
  if String.eqb format_type "json" then write f (json_dumps config)
  else if String.eqb format_type "ini" then
    sections ← lift (items config);
    for_each sections (fun sv =>
      write f ("[" +:+ fst sv +:+ "]" +:+ nl);;
      (if is_dict (snd sv)
       then kvs ← lift (items (snd sv));
            for_each kvs (fun kv => write f (fst kv +:+ " = " +:+ py_str (snd kv) +:+ nl))
       else mret tt);;
      write f nl)
  else write f (py_str config).

(** ** Notions of the further properties *)


(** The integer under a key, [0] when the key is missing or holds no [int]. *)
Definition int_of (o : option pyval) : Z :=
  match o with
  | Some (PInt z) => z
  | _ => 0
  end.

(** The name of the tier of a tuning profile. *)
Definition tier (profile : pyval) : option pyval := field "memory_management" profile.

(** An input of a node that refers to an output of another: a two-item list
    of a node id and a slot index. *)
Definition as_ref (v : pyval) : option (string * Z) :=
  match v with
  | PList [PStr node; PInt slot] => Some (node, slot)
  | _ => None
  end.

Definition node_refs (node : pyval) : list (string * Z) :=
  omap (fun kv => as_ref (snd kv)) (dict_items (field "inputs" node)).

Definition names (ids : list string) (r : string * Z) : bool :=
  existsb (String.eqb (fst r)) ids.

(** Every reference of the graph names one of its nodes. *)
Definition refs_closed (graph : pyval) : bool :=
  forallb (fun kv => forallb (names (dict_keys (dict_items (Some graph))))
                             (node_refs (snd kv)))
          (dict_items (Some graph)).

(** The nodes taken in [order] refer to nodes taken before them only
    ([seen] holds the ones already taken). *)
Fixpoint ordered (seen order : list string) (graph : pyval) : bool :=
  match order with
  | [] => true
  | id :: rest =>
      match field id graph with
      | Some node => forallb (names seen) (node_refs node) && ordered (id :: seen) rest graph
      | None => false
      end
  end.

(** The server name a call asks for, whatever the domain: the wildcard for
    a missing or empty one. *)
Definition effective_name (domain : option string) : string :=
  match domain with
  | Some (String c d) => String c d
  | _ => "_"
  end.

(** The configuration text before and after the server name. *)
Definition nginx_head : string :=
  "server {" +:+ nl +:+ "    listen 80;" +:+ nl +:+ "    server_name ".

Definition nginx_tail : string :=
  ";" +:+ nl +:+ join nl (skipn 3 (nginx_lines EmptyString)).

(** The four configuration types [main] writes through [save_config]. *)
Definition saved_type (config_type : string) : bool :=
  String.eqb config_type "supervisor" || String.eqb config_type "nginx"
  || String.eqb config_type "workflow" || String.eqb config_type "optimization".

(** The file [main] writes to: the [--output] name, or the default of the
    configuration type when that is missing or empty. *)
Definition target (args : Namespace) : string :=
  or_else (args_output args)
    (if String.eqb (args_config_type args) "supervisor" then "supervisord.conf"
     else if String.eqb (args_config_type args) "nginx" then "nginx_site.conf"
     else if String.eqb (args_config_type args) "docker" then "docker-compose.yml"
     else if String.eqb (args_config_type args) "workflow"
          then "workflow_" +:+ args_workflow_type args +:+ ".json"
     else "gpu_optimization.json").

(** The path [main] writes to: [generator.work_dir / output_file]. *)
Definition target_path (args : Namespace) : string :=
  Path (posix_join (Path (args_work_dir args)) (target args)).

(** The probe does not interrupt the constructor: it runs to completion, or
    it fails to start with an error the constructor recovers from. *)
Definition probe_returns (nvidia_smi : process) : Prop :=
  match nvidia_smi with
  | SpawnFails e => probe_catches e = true
  | Completed _ _ => True
  end.

(** The log of [w'] is the log of [w], after the warning of the probe if
    there was one. *)
Definition after_probe (w w' : world) : Prop :=
  w' = w \/ w' = add_log w probe_warning.

(** * Properties *)

(** ** Strings *)

Lemma append_nil_r (s : string) : s +:+ EmptyString = s.
Proof. induction s as [|c s IH]; simpl; [reflexivity | now rewrite IH]. Qed.

Lemma append_assoc (s t u : string) : (s +:+ t) +:+ u = s +:+ (t +:+ u).
Proof. induction s as [|c s IH]; simpl; [reflexivity | now rewrite IH]. Qed.

Lemma append_length (s t : string) :
  String.length (s +:+ t) = (String.length s + String.length t)%nat.
Proof. induction s as [|c s IH]; simpl; [reflexivity | now rewrite IH]. Qed.

Lemma append_inv_head (s t u : string) : s +:+ t = s +:+ u -> t = u.
Proof. induction s as [|c s IH]; simpl; intros H; [exact H | injection H; auto]. Qed.

(** ** The GPU tuning profile *)

Section Tuning.
Variable self : ConfigGenerator.

Let profile : pyval := optimize_for_gpu_memory self.

Lemma high_tier :
  24 <= gpu_memory_gb self ->
  field "batch_size" profile = Some (PInt 4) /\
  field "memory_fraction" profile = Some (PFloat (float_lit 9 (-1))).
Proof.
  intros H. unfold profile, optimize_for_gpu_memory.
  destruct (Z.leb_spec 24 (gpu_memory_gb self)); [split; reflexivity | lia].
Qed.

Lemma medium_tier :
  12 <= gpu_memory_gb self < 24 ->
  field "batch_size" profile = Some (PInt 2) /\
  field "memory_fraction" profile = Some (PFloat (float_lit 8 (-1))).
Proof.
  intros [H1 H2]. unfold profile, optimize_for_gpu_memory.
  destruct (Z.leb_spec 24 (gpu_memory_gb self)); [lia |].
  destruct (Z.leb_spec 12 (gpu_memory_gb self)); [split; reflexivity | lia].
Qed.

Lemma low_tier :
  gpu_memory_gb self < 12 ->
  field "batch_size" profile = Some (PInt 1) /\
  field "memory_fraction" profile = Some (PFloat (float_lit 7 (-1))) /\
  field "enable_sequential_cpu_offload" profile = Some (PBool true).
Proof.
  intros H. unfold profile, optimize_for_gpu_memory.
  destruct (Z.leb_spec 24 (gpu_memory_gb self)); [lia |].
  destruct (Z.leb_spec 12 (gpu_memory_gb self)); [lia | repeat split; reflexivity].
Qed.
End Tuning.

(** The three float literals print as the spec writes them. *)
Lemma memory_fractions_text :
  float_repr (float_lit 9 (-1)) = "0.9" /\
  float_repr (float_lit 8 (-1)) = "0.8" /\
  float_repr (float_lit 7 (-1)) = "0.7".
Proof. repeat split; vm_compute; reflexivity. Qed.

(** C1: the tuning profile depends on the context through [gpu_memory_gb]
    only, and its tier has inclusive lower bounds tried from the top: from 24
    up batch size 4 and memory fraction 0.9, from 12 up to 24 excluded batch
    size 2 and fraction 0.8, below 12 batch size 1, fraction 0.7 and
    sequential CPU offload on. *)
Theorem optimize_for_gpu_memory_tiers (self : ConfigGenerator) :
  let profile := optimize_for_gpu_memory self in
  (forall other, gpu_memory_gb other = gpu_memory_gb self ->
                 optimize_for_gpu_memory other = profile) /\
  (24 <= gpu_memory_gb self ->
     field "batch_size" profile = Some (PInt 4) /\
     field "memory_fraction" profile = Some (PFloat (float_lit 9 (-1)))) /\
  (12 <= gpu_memory_gb self < 24 ->
     field "batch_size" profile = Some (PInt 2) /\
     field "memory_fraction" profile = Some (PFloat (float_lit 8 (-1)))) /\
  (gpu_memory_gb self < 12 ->
     field "batch_size" profile = Some (PInt 1) /\
     field "memory_fraction" profile = Some (PFloat (float_lit 7 (-1))) /\
     field "enable_sequential_cpu_offload" profile = Some (PBool true)).
Proof.
  cbv zeta. split; [| split; [| split]].
  - intros other E. unfold optimize_for_gpu_memory. now rewrite E.
  - apply high_tier.
  - apply medium_tier.
  - apply low_tier.
Qed.

(** The tiers at their boundaries: 24, 12 and 11 GB. *)
Lemma optimize_for_gpu_memory_tiers_witness :
  (field "batch_size" (optimize_for_gpu_memory (mkGenerator "/w" "/c" 24)) = Some (PInt 4) /\
   field "memory_fraction" (optimize_for_gpu_memory (mkGenerator "/w" "/c" 24))
     = Some (PFloat (float_lit 9 (-1)))) /\
  (field "batch_size" (optimize_for_gpu_memory (mkGenerator "/w" "/c" 12)) = Some (PInt 2) /\
   field "memory_fraction" (optimize_for_gpu_memory (mkGenerator "/w" "/c" 12))
     = Some (PFloat (float_lit 8 (-1)))) /\
  (field "batch_size" (optimize_for_gpu_memory (mkGenerator "/w" "/c" 11)) = Some (PInt 1) /\
   field "memory_fraction" (optimize_for_gpu_memory (mkGenerator "/w" "/c" 11))
     = Some (PFloat (float_lit 7 (-1))) /\
   field "enable_sequential_cpu_offload" (optimize_for_gpu_memory (mkGenerator "/w" "/c" 11))
     = Some (PBool true)).
Proof.
  split; [| split].
  - apply (optimize_for_gpu_memory_tiers (mkGenerator "/w" "/c" 24)). simpl. lia.
  - apply (optimize_for_gpu_memory_tiers (mkGenerator "/w" "/c" 12)). simpl. lia.
  - apply (optimize_for_gpu_memory_tiers (mkGenerator "/w" "/c" 11)). simpl. lia.
Defined.

(** ** The workflow graph *)

Lemma workflows_basic : exists basic, dict_getitem "basic" workflows = Return basic.
Proof. eexists. reflexivity. Qed.

Lemma workflows_lookup (workflow_type : string) (default : pyval) :
  dict_get "basic" workflows = Some default ->
  dict_get_default workflow_type workflows default = default.
Proof.
  unfold dict_get_default, workflows. simpl. intros E.
  destruct (String.eqb workflow_type "basic"); [congruence | reflexivity].
Qed.

Lemma generate_comfyui_workflow_basic (self : ConfigGenerator) (workflow_type : string) :
  exists basic,
    dict_get "basic" workflows = Some basic /\
    generate_comfyui_workflow self workflow_type = Return basic.
Proof.
  unfold generate_comfyui_workflow, dict_getitem.
  destruct (dict_get "basic" workflows) as [basic|] eqn:E; [| discriminate E].
  exists basic. now rewrite (workflows_lookup _ basic E).
Qed.

(** C2: [generate_comfyui_workflow] returns a graph for every variant string,
    and it is the graph returned for ["basic"]. *)
Theorem generate_comfyui_workflow_total (self : ConfigGenerator) (workflow_type : string) :
  (exists graph, generate_comfyui_workflow self workflow_type = Return graph) /\
  generate_comfyui_workflow self workflow_type = generate_comfyui_workflow self "basic".
Proof.
  destruct (generate_comfyui_workflow_basic self workflow_type) as (basic & E & ->).
  destruct (generate_comfyui_workflow_basic self "basic") as (basic' & E' & ->).
  split; [eexists; reflexivity | congruence].
Qed.

(** ** The orchestration manifest *)

(** C3, as the code has it: the manifest has the two services with the
    stated build context, ports, mounts, environment, GPU reservation, image
    and dependency, and both services carry the restart policy
    [unless-stopped]. *)
Theorem generate_docker_compose_shape (self : ConfigGenerator) :
  compose_shape "unless-stopped" self.
Proof.
  unfold compose_shape. cbv zeta. simpl.
  repeat split; try reflexivity; auto.
  eexists. repeat split; reflexivity.
Qed.

(** C3 as stated fails: the restart policy of the services is not
    [on-failure]. *)
Lemma generate_docker_compose_not_on_failure :
  ~ compose_shape "on-failure" (mkGenerator "/my-hybrid-service" "/workspace/ComfyUI" 8).
Proof.
  unfold compose_shape. cbv zeta. simpl.
  intros (_ & _ & _ & _ & _ & _ & _ & _ & H & _). discriminate H.
Qed.

(** ** The supervisor configuration *)

(** C5: the supervisor document has exactly two program sections, [comfyui]
    and [fastapi] in this order, and in each the stdout and stderr log paths
    differ. *)
Theorem generate_supervisor_config_programs (self : ConfigGenerator) :
  exists comfyui fastapi,
    program_sections (generate_supervisor_config self)
      = [("comfyui", comfyui); ("fastapi", fastapi)] /\
    distinct_logs comfyui /\ distinct_logs fastapi.
Proof.
  do 2 eexists. split; [reflexivity |].
  split; do 2 eexists; (split; [reflexivity | split; [reflexivity |]]);
    intros E; apply append_inv_head in E; discriminate E.
Qed.

(** ** The GPU probe *)

Lemma split_on_cons (sep : ascii) (s : string) :
  exists x l, split_on sep s = x :: l.
Proof.
  induction s as [|c s (x & l & IH)]; simpl; [eauto |].
  destruct (Ascii.eqb c sep); [eauto |]. rewrite IH. eauto.
Qed.

Lemma first_item_first_line (stdout : string) :
  first_item (split_on newline (py_strip stdout)) = Return (first_line stdout).
Proof.
  unfold first_line. destruct (split_on_cons newline (py_strip stdout)) as (x & l & E).
  now rewrite E.
Qed.

Lemma _get_gpu_memory_fallback (nvidia_smi : process) (w : world) :
  probe_fails nvidia_smi ->
  _get_gpu_memory nvidia_smi w
    = (Return 8, add_log w probe_warning).
Proof.
  unfold _get_gpu_memory, try_except, mbind, M_bind, lift, int_of_str.
  destruct nvidia_smi as [e | rc stdout]; simpl.
  - intros ->. reflexivity.
  - intros H. destruct (Z.eqb_spec rc 0) as [-> | Hrc]; [| reflexivity].
    destruct H as [H | [_ H]]; [congruence |].
    rewrite first_item_first_line, H. reflexivity.
Qed.

(** C7: when the probe fails (the command is missing, it exits with a
    non-zero code, or it prints ASCII text whose first line is not an
    integer) the constructor returns a context whose [gpu_memory_gb] is 8,
    after logging one warning. *)
Theorem init_gpu_fallback (work_dir comfyui_dir : string) (nvidia_smi : process) (w : world) :
  probe_fails nvidia_smi ->
  exists self w',
    __init__ work_dir comfyui_dir nvidia_smi w = (Return self, w') /\
    gpu_memory_gb self = 8 /\
    log w' = log w ++ [probe_warning].
Proof.
  intros H. unfold __init__, mbind, M_bind.
  rewrite (_get_gpu_memory_fallback _ _ H). do 2 eexists. repeat split.
Qed.

Lemma init_gpu_fallback_witness :
  (exists self w',
     __init__ "/w" "/c" (SpawnFails FileNotFoundError) empty_world = (Return self, w') /\
     gpu_memory_gb self = 8 /\ log w' = log empty_world ++ [probe_warning]) /\
  (exists self w',
     __init__ "/w" "/c" (Completed 9 EmptyString) empty_world = (Return self, w') /\
     gpu_memory_gb self = 8 /\ log w' = log empty_world ++ [probe_warning]) /\
  (exists self w',
     __init__ "/w" "/c" (Completed 0 ("[N/A]" +:+ nl)) empty_world = (Return self, w') /\
     gpu_memory_gb self = 8 /\ log w' = log empty_world ++ [probe_warning]).
Proof.
  split; [| split].
  - apply (init_gpu_fallback "/w" "/c" (SpawnFails FileNotFoundError) empty_world).
    reflexivity.
  - apply (init_gpu_fallback "/w" "/c" (Completed 9 EmptyString) empty_world).
    left. discriminate.
  - apply (init_gpu_fallback "/w" "/c" (Completed 0 ("[N/A]" +:+ nl)) empty_world).
    right. split; reflexivity.
Defined.

(** ** The reverse-proxy configuration *)

Lemma join_cons2 (sep x y : string) (l : list string) :
  join sep (x :: y :: l) = x +:+ sep +:+ join sep (y :: l).
Proof. reflexivity. Qed.

Lemma join_snoc (sep x : string) (l : list string) :
  l <> [] -> join sep (l ++ [x]) = join sep l +:+ sep +:+ x.
Proof.
  induction l as [|y l IH]; [congruence | intros _].
  destruct l as [|z l]; [reflexivity |].
  change (join sep (y :: z :: (l ++ [x]))
          = (y +:+ sep +:+ join sep (z :: l)) +:+ sep +:+ x).
  rewrite join_cons2. change (z :: l ++ [x]) with ((z :: l) ++ [x]).
  rewrite IH by congruence. now rewrite !append_assoc.
Qed.

Lemma rstrip_append (s t : string) :
  rstrip t <> EmptyString -> rstrip (s +:+ t) = s +:+ rstrip t.
Proof.
  intros H. induction s as [|c s IH]; simpl; [reflexivity |].
  rewrite IH. destruct (s +:+ rstrip t) eqn:E; [| reflexivity].
  destruct s; simpl in E; [congruence | discriminate E].
Qed.

Lemma rstrip_spaces_only (s : string) :
  rstrip s = EmptyString -> forall t, rstrip (t +:+ s) = rstrip t.
Proof.
  intros H t. induction t as [|c t IH]; simpl; [exact H | now rewrite IH].
Qed.

Lemma contains_append (c : ascii) (s t : string) :
  contains c (s +:+ t) = contains c s || contains c t.
Proof.
  induction s as [|a s IH]; cbn [contains String.append]; [reflexivity |].
  rewrite IH. now rewrite orb_assoc.
Qed.

Lemma split_on_line (l rest : string) :
  contains newline l = false ->
  split_on newline (l +:+ nl +:+ rest) = l :: split_on newline rest.
Proof.
  induction l as [|c l IH]; cbn [contains split_on String.append]; [reflexivity |].
  intros H. apply orb_false_elim in H as [Hc Hl].
  rewrite Ascii.eqb_sym, Hc. now rewrite (IH Hl).
Qed.

Lemma split_on_last (l : string) :
  contains newline l = false -> split_on newline l = [l].
Proof.
  induction l as [|c l IH]; cbn [contains split_on String.append]; [reflexivity |].
  intros H. apply orb_false_elim in H as [Hc Hl].
  rewrite Ascii.eqb_sym, Hc. now rewrite (IH Hl).
Qed.

(** Splitting what was joined gives the lines back, when none holds a line
    break. *)
Lemma lines_join (ls : list string) :
  ls <> [] ->
  Forall (fun l => contains newline l = false) ls ->
  lines (join nl ls) = ls.
Proof.
  unfold lines. induction ls as [|l ls IH]; [congruence | intros _ H].
  inversion H as [|? ? Hl Hls]; subst.
  destruct ls as [|l' ls]; [now apply split_on_last |].
  rewrite join_cons2, (split_on_line _ _ Hl), IH; [reflexivity | congruence | exact Hls].
Qed.

(** [strip()] on a text that opens with an empty line and closes with a
    line [last] followed by an empty one. *)
Lemma strip_join (c : ascii) (l last : string) (body : list string) :
  is_space c = false -> last <> EmptyString -> rstrip last = last ->
  py_strip (join nl (EmptyString :: (String c l :: body ++ [last]) ++ [EmptyString]))
    = join nl (String c l :: body ++ [last]).
Proof.
  intros Hc Hne Hlast. unfold py_strip.
  assert (E : lstrip (join nl (EmptyString :: (String c l :: body ++ [last]) ++ [EmptyString]))
              = join nl ((String c l :: body ++ [last]) ++ [EmptyString])).
  { cbn [app]. rewrite join_cons2. cbn [String.append nl lstrip].
    change (is_space (ascii_of_nat 10)) with true. cbn iota.
    destruct ((body ++ [last]) ++ [EmptyString]) as [|x xs] eqn:Ex.
    - destruct body; discriminate Ex.
    - rewrite join_cons2. cbn [String.append lstrip]. now rewrite Hc. }
  rewrite E.
  rewrite (join_snoc nl EmptyString (String c l :: body ++ [last])) by discriminate.
  rewrite rstrip_spaces_only by reflexivity.
  change (String c l :: body ++ [last]) with ((String c l :: body) ++ [last]).
  rewrite (join_snoc nl last (String c l :: body)) by discriminate.
  rewrite <- append_assoc, rstrip_append; rewrite Hlast; [reflexivity | exact Hne].
Qed.

Lemma nginx_strip (server_name : string) :
  py_strip (join nl (nginx_template_lines server_name))
    = join nl (nginx_lines server_name).
Proof.
  set (body := tl (removelast (nginx_lines server_name))).
  change (nginx_template_lines server_name)
    with (EmptyString :: ("server {" :: body ++ ["}"]) ++ [EmptyString]).
  change (nginx_lines server_name) with ("server {" :: body ++ ["}"]).
  apply strip_join; [reflexivity | discriminate | reflexivity].
Qed.

Lemma nginx_lines_no_newline (server_name : string) :
  contains newline server_name = false ->
  Forall (fun l => contains newline l = false) (nginx_lines server_name).
Proof.
  intros H. unfold nginx_lines, nginx_template_lines. cbn [tl removelast].
  repeat (constructor; [first [reflexivity | idtac] |]); [| constructor].
  rewrite !contains_append, H. reflexivity.
Qed.

Lemma generate_nginx_config_lines (self : ConfigGenerator) (domain : option string) :
  domain_ok domain ->
  lines (generate_nginx_config self domain) = nginx_lines (requested_name domain).
Proof.
  intros H. unfold generate_nginx_config.
  assert (E : (if truthy domain then default EmptyString domain else "_")
              = requested_name domain).
  { destruct domain as [[|c d]|]; simpl in *; [destruct H; congruence | reflexivity..]. }
  rewrite E, nginx_strip. apply lines_join; [discriminate |].
  apply nginx_lines_no_newline.
  destruct domain as [d|]; simpl in *; [apply H | reflexivity].
Qed.

(** C4: without a domain the [server_name] line of the configuration names
    the wildcard [_]; with a domain it names exactly that domain; and two
    such configurations have the same lines everywhere but on that line,
    which is the third. *)
Theorem generate_nginx_config_server_name (self : ConfigGenerator)
    (domain domain' : option string) :
  domain_ok domain -> domain_ok domain' ->
  let conf := lines (generate_nginx_config self domain) in
  let conf' := lines (generate_nginx_config self domain') in
  lines (generate_nginx_config self None) !! 2%nat = Some (server_name_line "_") /\
  conf !! 2%nat = Some (server_name_line (requested_name domain)) /\
  length conf = length conf' /\
  forall i : nat, i <> 2%nat -> conf !! i = conf' !! i.
Proof.
  intros H H'. cbv zeta.
  rewrite !generate_nginx_config_lines by (exact H || exact H' || exact I).
  split; [reflexivity |]. split; [reflexivity |]. split; [reflexivity |].
  intros [|[|[|i]]] Hi; [reflexivity | reflexivity | congruence | reflexivity].
Qed.

Lemma generate_nginx_config_server_name_witness :
  let self := mkGenerator "/my-hybrid-service" "/workspace/ComfyUI" 8 in
  let conf := lines (generate_nginx_config self (Some "example.com")) in
  let conf' := lines (generate_nginx_config self None) in
  lines (generate_nginx_config self None) !! 2%nat = Some "    server_name _;" /\
  conf !! 2%nat = Some "    server_name example.com;" /\
  length conf = length conf' /\
  forall i : nat, i <> 2%nat -> conf !! i = conf' !! i.
Proof.
  apply (generate_nginx_config_server_name
           (mkGenerator "/my-hybrid-service" "/workspace/ComfyUI" 8)
           (Some "example.com") None).
  - split; [discriminate | reflexivity].
  - exact I.
Defined.

(** ** Writing a configuration *)

(** *** Text that can be encoded *)

Lemma utf8_run_app (a b : string) (st : utf8_state) :
  utf8_run st (a +:+ b) = utf8_run st a ≫= fun st' => utf8_run st' b.
Proof.
  revert st. induction a as [|c a IH]; intros st; cbn [String.append utf8_run].
  - reflexivity.
  - destruct (utf8_step st c) as [st' |]; [apply IH | reflexivity].
Qed.

Lemma utf8_valid_run (s : string) : utf8_valid s = true -> utf8_run U0 s = Some U0.
Proof.
  unfold utf8_valid. destruct (utf8_run U0 s) as [[] |]; intros H;
    first [reflexivity | discriminate H].
Qed.

Lemma utf8_valid_app (a b : string) :
  utf8_valid a = true -> utf8_valid b = true -> utf8_valid (a +:+ b) = true.
Proof.
  intros Ha Hb. unfold utf8_valid. rewrite utf8_run_app, (utf8_valid_run _ Ha).
  exact Hb.
Qed.

(** Goals on the validity of a text built by appending. *)
Ltac utf8 :=
  repeat first [ assumption | reflexivity | apply utf8_valid_app ].

(** *** Exceptions *)

Lemma guarded_ret {A : Type} (a : A) : guarded (mret a : M A).
Proof. intros w e w' H. discriminate H. Qed.

Lemma guarded_bind {A B : Type} (c : M A) (k : A -> M B) :
  guarded c -> (forall a, guarded (k a)) -> guarded (c ≫= k).
Proof.
  intros Hc Hk w e w' H. unfold mbind, M_bind in H.
  destruct (c w) as [[a | e1] w1] eqn:E.
  - exact (Hk a _ _ _ H).
  - injection H as <- <-. exact (Hc _ _ _ E).
Qed.

Lemma open_exn_Exception (r : open_failure) : is_Exception (open_exn r) = true.
Proof. now destruct r. Qed.

Lemma guarded_open_w (path : string) : guarded (open_w path).
Proof.
  intros w e w' H. unfold open_w in H.
  destruct (os_open w path) as [r | f];
    [injection H as <- _; apply open_exn_Exception | discriminate H].
Qed.

Lemma guarded_write (f : inode) (s : string) : guarded (write f s).
Proof.
  intros w e w' H. unfold write in H.
  destruct (negb (utf8_valid s)); [injection H as <- _; reflexivity |].
  destruct (String.length s <=? free_space w)%nat;
    [discriminate H | injection H as <- _; reflexivity].
Qed.

Lemma guarded_items (config : pyval) : guarded (lift (items config)).
Proof.
  intros w e w' H. unfold lift in H.
  destruct config; simpl in H; try discriminate H; injection H as <- _; reflexivity.
Qed.

Lemma guarded_for_each {A : Type} (l : list A) (body : A -> M unit) :
  (forall x, guarded (body x)) -> guarded (for_each l body).
Proof.
  intros Hb. induction l as [|x l IH]; cbn [for_each].
  - apply guarded_ret.
  - apply guarded_bind; [apply Hb | intros _; exact IH].
Qed.

Create HintDb guard.
#[local] Hint Resolve guarded_ret guarded_open_w guarded_write guarded_items : guard.

Lemma guarded_write_ini (path : string) (config : pyval) : guarded (write_ini path config).
Proof.
  unfold write_ini.
  apply guarded_bind; [auto with guard | intros f].
  apply guarded_bind; [auto with guard | intros sections].
  apply guarded_for_each. intros sv.
  apply guarded_bind; [auto with guard | intros _].
  apply guarded_bind; [| intros _; auto with guard].
  destruct (is_dict (snd sv)); [| auto with guard].
  apply guarded_bind; [auto with guard | intros kvs].
  apply guarded_for_each. auto with guard.
Qed.

Lemma guarded_save_body (config : pyval) (path format_type : string) :
  guarded (save_body config path format_type).
Proof.
  unfold save_body.
  destruct (String.eqb format_type "json");
    [apply guarded_bind; [| intros f]; auto with guard |].
  destruct (String.eqb format_type "ini"); [apply guarded_write_ini |].
  destruct (String.eqb format_type "text");
    [apply guarded_bind; [| intros f]; auto with guard | auto with guard].
Qed.

(** [save_config] in terms of what its [try] block does. *)
Lemma save_config_by_body (self : ConfigGenerator) (config : pyval)
    (filename format_type : string) (w : world) :
  save_config self config filename format_type w =
    match save_body config (filepath self filename) format_type w with
    | (Return _, w1) => (Return true, add_log w1 (saved_message self filename))
    | (Raise e, w1) => (Return false, add_log w1 (failed_message e))
    end.
Proof.
  unfold save_config, try_except, mbind, M_bind.
  destruct (save_body config (filepath self filename) format_type w) as [[[] | e] w1] eqn:E.
  - reflexivity.
  - now rewrite (guarded_save_body _ _ _ _ _ _ E).
Qed.

(** *** Opening *)

Lemma open_w_refused (w : world) (path : string) (r : open_failure) :
  os_open w path = Refused r -> open_w path w = (Raise (open_exn r), w).
Proof. unfold open_w. now intros ->. Qed.

Lemma open_w_opened (w : world) (path : string) (f : inode) :
  os_open w path = Opened f ->
  open_w path w
  = (Return f, set_entries w (<[f := EmptyString]> (entries w)) (space_after_open w f)).
Proof. unfold open_w. now intros ->. Qed.

Lemma save_body_unopened (config : pyval) (path format_type : string) (w : world)
    (r : open_failure) :
  recognised format_type = true -> os_open w path = Refused r ->
  save_body config path format_type w = (Raise (open_exn r), w).
Proof.
  unfold recognised, save_body, write_ini. intros Hf Ho.
  destruct (String.eqb format_type "json");
    [unfold mbind, M_bind; now rewrite (open_w_refused _ _ _ Ho) |].
  destruct (String.eqb format_type "ini");
    [unfold mbind, M_bind; now rewrite (open_w_refused _ _ _ Ho) |].
  destruct (String.eqb format_type "text");
    [unfold mbind, M_bind; now rewrite (open_w_refused _ _ _ Ho) | discriminate Hf].
Qed.

Lemma save_body_unrecognised (config : pyval) (path format_type : string) (w : world) :
  recognised format_type = false ->
  save_body config path format_type w = (Return tt, w).
Proof.
  unfold recognised, save_body. intros H.
  apply orb_false_elim in H as [H Ht]. apply orb_false_elim in H as [Hj Hi].
  now rewrite Hj, Hi, Ht.
Qed.

(** *** The writes as one write *)

Lemma substring_all (n : nat) (s : string) :
  (String.length s <= n)%nat -> String.substring 0 n s = s.
Proof.
  revert n. induction s as [|c s IH]; intros [|n] H; cbn in *;
    [reflexivity | reflexivity | lia | f_equal; apply IH; lia].
Qed.

Lemma substring_none (s : string) : String.substring 0 0 s = EmptyString.
Proof. now destruct s. Qed.

Lemma substring_append (n : nat) (a b : string) :
  String.substring 0 n (a +:+ b)
  = String.substring 0 n a +:+ String.substring 0 (n - String.length a) b.
Proof.
  revert n. induction a as [|c a IH]; intros n.
  - cbn [String.append String.length]. rewrite Nat.sub_0_r. now destruct n.
  - destruct n as [|n]; [now rewrite !substring_none |].
    cbn [String.append String.length String.substring Nat.sub]. now rewrite IH.
Qed.

Lemma world_eta (w : world) :
  mkWorld (os_open w) (entries w) (free_space w) (log w) = w.
Proof. now destruct w. Qed.

(** Two writes in a row are one write of the two texts, also when the
    device runs out of space on the way. *)
Lemma write_write (f : inode) (a b : string) (w : world) :
  utf8_valid a = true -> utf8_valid b = true ->
  (write f a ≫= fun _ => write f b) w = write f (a +:+ b) w.
Proof.
  intros Va Vb. unfold mbind, M_bind, write.
  rewrite append_length, Va, (utf8_valid_app _ _ Va Vb). cbn [negb].
  set (old := default EmptyString (entries w !! f)).
  destruct (Nat.leb_spec (String.length a) (free_space w)) as [Ha | Ha].
  - cbn [set_entries entries free_space]. rewrite lookup_insert_eq, Vb.
    cbn [default negb]. unfold id.
    destruct (Nat.leb_spec (String.length b) (free_space w - String.length a)) as [Hb | Hb].
    + destruct (Nat.leb_spec (String.length a + String.length b) (free_space w)); [| lia].
      unfold set_entries. cbn [os_open log entries].
      rewrite insert_insert_eq, append_assoc.
      now replace (free_space w - String.length a - String.length b)%nat
        with (free_space w - (String.length a + String.length b))%nat by lia.
    + destruct (Nat.leb_spec (String.length a + String.length b) (free_space w)); [lia |].
      unfold set_entries. cbn [os_open log entries].
      rewrite insert_insert_eq, append_assoc, substring_append, (substring_all _ a Ha).
      reflexivity.
  - destruct (Nat.leb_spec (String.length a + String.length b) (free_space w)); [lia |].
    rewrite substring_append.
    replace (free_space w - String.length a)%nat with 0%nat by lia.
    now rewrite substring_none, append_nil_r.
Qed.

Lemma write_keeps_open (f : inode) (s : string) (w w' : world) (r : result unit) :
  file_open w f -> write f s w = (r, w') -> file_open w' f.
Proof.
  unfold write, file_open. intros Hw.
  destruct (negb (utf8_valid s)); [now intros [= <- <-] |].
  destruct (String.length s <=? free_space w)%nat;
    intros [= <- <-]; cbn [set_entries entries]; now rewrite lookup_insert_eq.
Qed.

Lemma writes_ret (f : inode) : writes f (mret tt) EmptyString.
Proof.
  split; [reflexivity |]. intros w Hw. unfold write, file_open in *.
  destruct (entries w !! f) as [content |] eqn:Hc; [| congruence].
  cbn [utf8_valid utf8_run negb default String.length Nat.leb].
  rewrite append_nil_r, Nat.sub_0_r, (insert_id _ _ _ Hc).
  unfold set_entries. now rewrite world_eta.
Qed.

Lemma writes_write (f : inode) (s : string) :
  utf8_valid s = true -> writes f (write f s) s.
Proof. intros H. split; [exact H | reflexivity]. Qed.

Lemma writes_bind (f : inode) (c1 c2 : M unit) (a b : string) :
  writes f c1 a -> writes f c2 b ->
  writes f (c1 ≫= fun _ => c2) (a +:+ b).
Proof.
  intros [Va H1] [Vb H2]. split; [now apply utf8_valid_app |].
  intros w Hw. rewrite <- (write_write _ _ _ _ Va Vb). unfold mbind, M_bind.
  rewrite (H1 w Hw). destruct (write f a w) as [[[] | e] w1] eqn:E; [| reflexivity].
  apply H2. exact (write_keeps_open _ _ _ _ _ Hw E).
Qed.

Lemma writes_for_each {A : Type} (f : inode) (l : list A) (body : A -> M unit)
    (text : A -> string) :
  Forall (fun x => writes f (body x) (text x)) l ->
  writes f (for_each l body) (concat_strings (map text l)).
Proof.
  induction 1 as [|x l Hx _ IH]; cbn [for_each map concat_strings].
  - apply writes_ret.
  - apply writes_bind; [exact Hx | exact IH].
Qed.

Lemma forallb_Forall {A : Type} (p : A -> bool) (P : A -> Prop) (l : list A) :
  (forall x, p x = true -> P x) -> forallb p l = true -> Forall P l.
Proof.
  intros H. induction l as [|x l IH]; cbn [forallb]; intros Hl; constructor.
  - apply H. now apply andb_prop in Hl as [Hx _].
  - apply IH. now apply andb_prop in Hl as [_ Hl].
Qed.

Lemma writes_ini_section (f : inode) (sv : string * pyval) :
  utf8_valid ("[" +:+ fst sv +:+ "]" +:+ nl) &&
  match snd sv with
  | PDict kvs => forallb (fun kv => utf8_valid (ini_line kv)) kvs
  | _ => true
  end = true ->
  writes f
    (write f ("[" +:+ fst sv +:+ "]" +:+ nl);;
     (if is_dict (snd sv)
      then kvs ← lift (items (snd sv));
           for_each kvs (fun kv => write f (fst kv +:+ " = " +:+ py_str (snd kv) +:+ nl))
      else mret tt);;
     write f nl)
    (ini_section sv).
Proof.
  intros H. apply andb_prop in H as [Hh Hk].
  unfold ini_section. apply writes_bind; [now apply writes_write |].
  apply writes_bind; [| now apply writes_write].
  destruct (snd sv) as [| | | | | |kvs]; cbn [is_dict]; try apply writes_ret.
  pose proof (writes_for_each f kvs
                (fun kv => write f (fst kv +:+ " = " +:+ py_str (snd kv) +:+ nl)) ini_line)
    as Hw.
  destruct Hw as [Hv Hw].
  { revert Hk. apply forallb_Forall. intros kv Hkv. now apply writes_write. }
  split; [exact Hv |]. intros w Ho. exact (Hw w Ho).
Qed.

Lemma ini_writes (f : inode) (d : pydict) :
  ini_valid d = true ->
  writes f
    (for_each d (fun sv =>
       write f ("[" +:+ fst sv +:+ "]" +:+ nl);;
       (if is_dict (snd sv)
        then kvs ← lift (items (snd sv));
             for_each kvs (fun kv => write f (fst kv +:+ " = " +:+ py_str (snd kv) +:+ nl))
        else mret tt);;
       write f nl))
    (ini_text d).
Proof.
  intros H. apply (writes_for_each f d _ ini_section).
  revert H. apply forallb_Forall. intros sv. apply writes_ini_section.
Qed.

Lemma serialise_valid (format_type : string) (config : pyval) (text : string) :
  serialise format_type config = Some text ->
  encodable format_type config = true ->
  utf8_valid text = true.
Proof.
  unfold serialise, encodable.
  destruct (String.eqb format_type "json"); [now intros [= <-] |].
  destruct (String.eqb format_type "ini").
  - destruct config as [| | | | | |d]; try discriminate. intros [= <-] H.
    exact (proj1 (ini_writes 1%positive d H)).
  - destruct (String.eqb format_type "text"); [now intros [= <-] | discriminate].
Qed.

(** The writer of each known format opens the file and then does what one
    write of the serialised text does. *)
Lemma save_body_serialise (config : pyval) (path format_type text : string) (w : world) :
  serialise format_type config = Some text ->
  encodable format_type config = true ->
  save_body config path format_type w
  = (open_w path ≫= fun f => write f text) w.
Proof.
  unfold serialise, encodable, save_body.
  destruct (String.eqb format_type "json"); [now intros [= <-] |].
  destruct (String.eqb format_type "ini").
  - destruct config as [| | | | | |d]; try discriminate. intros [= <-] H.
    unfold write_ini, mbind, M_bind.
    destruct (open_w path w) as [[f | e] w1] eqn:E; [| reflexivity].
    cbn [lift items]. apply (ini_writes f d H).
    unfold open_w in E. destruct (os_open w path); [discriminate E |].
    injection E as <- <-. unfold file_open. cbn [set_entries entries].
    now rewrite lookup_insert_eq.
  - destruct (String.eqb format_type "text"); [now intros [= <-] | discriminate].
Qed.

Lemma save_config_saved (self : ConfigGenerator) (config : pyval)
    (filename format_type text : string) (f : inode) (w : world) :
  serialise format_type config = Some text ->
  encodable format_type config = true ->
  os_open w (filepath self filename) = Opened f ->
  (String.length text <= space_after_open w f)%nat ->
  save_config self config filename format_type w
  = (Return true, saved_world self filename f text w).
Proof.
  intros Hs He Ho Hl.
  rewrite save_config_by_body, (save_body_serialise _ _ _ _ _ Hs He).
  unfold mbind, M_bind. rewrite (open_w_opened _ _ _ Ho). unfold write.
  rewrite (serialise_valid _ _ _ Hs He).
  cbn [negb set_entries entries free_space]. rewrite lookup_insert_eq.
  cbn [default]. unfold id.
  destruct (Nat.leb_spec (String.length text) (space_after_open w f)); [| lia].
  unfold saved_world, add_log, set_entries. cbn [os_open entries free_space log].
  now rewrite insert_insert_eq.
Qed.

(** *** What the writers leave alone *)

Lemma keeps_ret {A : Type} (f : inode) (a : A) : keeps f (mret a : M A).
Proof. intros w r w' [= <- <-]. auto. Qed.

Lemma keeps_lift {A : Type} (f : inode) (x : result A) : keeps f (lift x).
Proof. intros w r w' [= <- <-]. auto. Qed.

Lemma keeps_bind {A B : Type} (f : inode) (c : M A) (k : A -> M B) :
  keeps f c -> (forall a, keeps f (k a)) -> keeps f (c ≫= k).
Proof.
  intros Hc Hk w r w' H. unfold mbind, M_bind in H.
  destruct (c w) as [[a | e] w1] eqn:E.
  - destruct (Hc _ _ _ E) as (H1 & H2 & H3 & H4).
    destruct (Hk a _ _ _ H) as (K1 & K2 & K3 & K4).
    repeat split; try congruence; [now auto |].
    intros other Ho. now rewrite K4, H4.
  - injection H as <- <-. exact (Hc _ _ _ E).
Qed.

Lemma keeps_write (f : inode) (s : string) : keeps f (write f s).
Proof.
  intros w r w' H. repeat split;
    [| | intros Hw; exact (write_keeps_open _ _ _ _ _ Hw H) |];
    unfold write in H;
    (destruct (negb (utf8_valid s)); [now injection H as <- <- |]);
    destruct (String.length s <=? free_space w)%nat;
    injection H as <- <-;
    first [reflexivity
          | intros other Ho; cbn [set_entries entries]; now rewrite lookup_insert_ne].
Qed.

Lemma keeps_for_each {A : Type} (f : inode) (l : list A) (body : A -> M unit) :
  (forall x, keeps f (body x)) -> keeps f (for_each l body).
Proof.
  intros Hb. induction l as [|x l IH]; cbn [for_each].
  - apply keeps_ret.
  - apply keeps_bind; [apply Hb | intros _; exact IH].
Qed.

Create HintDb keep.
#[local] Hint Resolve keeps_ret keeps_lift keeps_write : keep.

Lemma keeps_ini_sections (f : inode) (config : pyval) :
  keeps f (sections ← lift (items config);
           for_each sections (fun sv =>
             write f ("[" +:+ fst sv +:+ "]" +:+ nl);;
             (if is_dict (snd sv)
              then kvs ← lift (items (snd sv));
                   for_each kvs
                     (fun kv => write f (fst kv +:+ " = " +:+ py_str (snd kv) +:+ nl))
              else mret tt);;
             write f nl)).
Proof.
  apply keeps_bind; [auto with keep | intros sections].
  apply keeps_for_each. intros sv.
  apply keeps_bind; [auto with keep | intros _].
  apply keeps_bind; [| intros _; auto with keep].
  destruct (is_dict (snd sv)); [| auto with keep].
  apply keeps_bind; [auto with keep | intros kvs].
  apply keeps_for_each. auto with keep.
Qed.

Lemma keeps_after_open (config : pyval) (format_type : string) (f : inode) :
  keeps f (after_open config format_type f).
Proof.
  unfold after_open.
  destruct (String.eqb format_type "json"); [auto with keep |].
  destruct (String.eqb format_type "ini"); [apply keeps_ini_sections | auto with keep].
Qed.

Lemma save_body_after_open (config : pyval) (path format_type : string) (w : world) :
  recognised format_type = true ->
  save_body config path format_type w = (open_w path ≫= after_open config format_type) w.
Proof.
  unfold recognised, save_body, after_open, write_ini. intros H.
  destruct (String.eqb format_type "json"); [reflexivity |].
  destruct (String.eqb format_type "ini"); [reflexivity |].
  destruct (String.eqb format_type "text"); [reflexivity | discriminate H].
Qed.

(** What [open] and the writes that follow it leave alone. *)
Lemma keeps_opened (path : string) (k : inode -> M unit) :
  (forall f, keeps f (k f)) -> keeps_but path (open_w path ≫= k).
Proof.
  intros Hk w r w' H. unfold mbind, M_bind, open_w in H.
  destruct (os_open w path) as [e | f] eqn:Eo.
  - injection H as <- <-. auto.
  - destruct (Hk f _ _ _ H) as (K1 & K2 & _ & K4). repeat split; [exact K1 | exact K2 |].
    intros other Ho. rewrite K4 by congruence. cbn [set_entries entries].
    apply lookup_insert_ne. congruence.
Qed.

Lemma keeps_save_body (config : pyval) (path format_type : string) :
  keeps_but path (save_body config path format_type).
Proof.
  destruct (recognised format_type) eqn:Hf.
  - intros w r w' H. rewrite (save_body_after_open _ _ _ _ Hf) in H.
    revert w r w' H. apply keeps_opened. intros f. apply keeps_after_open.
  - intros w r w' H. rewrite (save_body_unrecognised _ _ _ _ Hf) in H.
    injection H as <- <-. auto.
Qed.

(** A writer that returns has opened the path, and the file is there. *)
Lemma save_body_creates (config : pyval) (path format_type : string) (w w1 : world) :
  recognised format_type = true ->
  save_body config path format_type w = (Return tt, w1) ->
  exists f, os_open w path = Opened f /\ file_open w1 f.
Proof.
  intros Hf H. rewrite (save_body_after_open _ _ _ _ Hf) in H.
  unfold mbind, M_bind, open_w in H.
  destruct (os_open w path) as [e | f] eqn:Eo; [discriminate H |].
  exists f. split; [reflexivity |].
  destruct (keeps_after_open config format_type f _ _ _ H) as (_ & _ & K & _).
  apply K. unfold file_open. cbn [set_entries entries]. now rewrite lookup_insert_eq.
Qed.

(** A text that does not fit the device makes the write raise. *)
Lemma save_config_text_no_room (self : ConfigGenerator) (text filename : string)
    (f : inode) (w : world) :
  os_open w (filepath self filename) = Opened f ->
  utf8_valid text = true ->
  (space_after_open w f < String.length text)%nat ->
  exists w', save_config self (PStr text) filename "text" w = (Return false, w') /\
             log w' = log w ++ [failed_message OSError].
Proof.
  intros Ho Hv Hl. rewrite save_config_by_body. unfold save_body.
  cbn [String.eqb Ascii.eqb Bool.eqb]. unfold mbind, M_bind.
  rewrite (open_w_opened _ _ _ Ho). unfold write. cbn [py_str]. rewrite Hv.
  cbn [negb set_entries free_space].
  destruct (Nat.leb_spec (String.length text) (space_after_open w f)); [lia |].
  eexists. split; reflexivity.
Qed.

(** C6: [save_config] always returns a boolean, whatever the write does: no
    exception leaves it.  It returns true after logging the saved message,
    or false after logging the exception that was raised, and nothing else
    is logged.  When [open] refuses the target of a known format (a missing
    directory, a denied permission, any other refusal), it returns false
    and nothing but the log has changed; it returns true in a known format
    only if the target was opened, and the file is there afterwards.  For a
    text that can be encoded, written in the text format to a target that
    opens, it returns true and the file holds the text when the device has
    room for it, and false with the [OSError] logged when it has not. *)
Theorem save_config_returns (self : ConfigGenerator) (config : pyval)
    (filename format_type : string) (w : world) :
  exists b w',
    save_config self config filename format_type w = (Return b, w') /\
    (b = true /\ log w' = log w ++ [saved_message self filename] \/
     b = false /\
     exists e, is_Exception e = true /\ log w' = log w ++ [failed_message e]) /\
    (recognised format_type = true ->
     forall r, os_open w (filepath self filename) = Refused r ->
       b = false /\ w' = add_log w (failed_message (open_exn r))) /\
    (recognised format_type = true -> b = true ->
     exists f, os_open w (filepath self filename) = Opened f /\ entries w' !! f <> None) /\
    (forall f text,
       format_type = "text" -> config = PStr text ->
       os_open w (filepath self filename) = Opened f ->
       utf8_valid text = true ->
       ((String.length text <= space_after_open w f)%nat ->
        b = true /\ entries w' !! f = Some text) /\
       ((space_after_open w f < String.length text)%nat ->
        b = false /\ log w' = log w ++ [failed_message OSError])).
Proof.
  pose proof (save_config_by_body self config filename format_type w) as E.
  destruct (save_body config (filepath self filename) format_type w)
    as [[[] | e] w1] eqn:Eb;
    destruct (keeps_save_body _ _ _ _ _ _ Eb) as (_ & Hlog & _).
  - exists true, (add_log w1 (saved_message self filename)). split; [exact E |].
    split; [left; cbn [add_log log]; now rewrite Hlog |].
    split; [intros Hf r Hr; rewrite (save_body_unopened _ _ _ _ _ Hf Hr) in Eb;
            discriminate Eb |].
    split; [intros Hf _; exact (save_body_creates _ _ _ _ _ Hf Eb) |].
    intros f text -> -> Ho Hv. split.
    + intros Hl.
      rewrite (save_config_saved self (PStr text) filename "text" text f w) in E
        by (try reflexivity; assumption).
      apply (f_equal snd) in E. cbn [snd] in E. split; [reflexivity |].
      rewrite <- E. cbn [saved_world entries]. apply lookup_insert_eq.
    + intros Hl.
      destruct (save_config_text_no_room self text filename f w Ho Hv Hl) as (w2 & E2 & _).
      rewrite E2 in E. discriminate E.
  - exists false, (add_log w1 (failed_message e)). split; [exact E |].
    split; [right; split; [reflexivity |]; exists e;
            split; [exact (guarded_save_body _ _ _ _ _ _ Eb) |];
            cbn [add_log log]; now rewrite Hlog |].
    split; [intros Hf r Hr; rewrite (save_body_unopened _ _ _ _ _ Hf Hr) in Eb;
            injection Eb as <- <-; auto |].
    split; [intros _ [=] |].
    intros f text -> -> Ho Hv. split.
    + intros Hl.
      rewrite (save_config_saved self (PStr text) filename "text" text f w) in E
        by (try reflexivity; assumption).
      discriminate E.
    + intros Hl.
      destruct (save_config_text_no_room self text filename f w Ho Hv Hl) as (w2 & E2 & L2).
      rewrite E2 in E. injection E as <-. split; [reflexivity | exact L2].
Qed.

Lemma save_config_returns_witness :
  save_config default_generator (optimize_for_gpu_memory default_generator)
              "gpu_optimization.json" "json" readonly_world
    = (Return false, add_log readonly_world (failed_message PermissionError)) /\
  exists w',
    save_config default_generator (PStr "server {}") "nginx_site.conf" "text" empty_world
      = (Return true, w') /\
    entries w' !! countable.encode "/my-hybrid-service/nginx_site.conf" = Some "server {}".
Proof.
  split.
  - destruct (save_config_returns default_generator (optimize_for_gpu_memory default_generator)
                "gpu_optimization.json" "json" readonly_world) as (b & w' & E & _ & H & _).
    destruct (H eq_refl Denied eq_refl) as [-> ->]. exact E.
  - destruct (save_config_returns default_generator (PStr "server {}")
                "nginx_site.conf" "text" empty_world) as (b & w' & E & _ & _ & _ & H).
    destruct (H (countable.encode "/my-hybrid-service/nginx_site.conf") "server {}"
                eq_refl eq_refl eq_refl eq_refl) as [H1 _].
    exists w'. destruct H1 as [-> Hc].
    + apply Nat.leb_le. vm_compute. reflexivity.
    + split; [exact E | exact Hc].
Defined.

(** C10: with a format other than [json], [ini] and [text], [save_config]
    creates no file (the entries of the file system are unchanged), logs the
    saved message and returns true. *)
Theorem save_config_unrecognised (self : ConfigGenerator) (config : pyval)
    (filename format_type : string) (w : world) :
  format_type <> "json" -> format_type <> "ini" -> format_type <> "text" ->
  exists w',
    save_config self config filename format_type w = (Return true, w') /\
    entries w' = entries w /\
    log w' = log w ++ [saved_message self filename].
Proof.
  intros Hj Hi Ht. rewrite save_config_by_body, save_body_unrecognised.
  - eexists. repeat split.
  - unfold recognised. apply String.eqb_neq in Hj, Hi, Ht. now rewrite Hj, Hi, Ht.
Qed.

Lemma save_config_unrecognised_witness :
  exists w',
    save_config default_generator (generate_docker_compose default_generator)
                "docker-compose.yml" "yaml" empty_world = (Return true, w') /\
    entries w' = entries empty_world /\
    log w' = log empty_world ++ [saved_message default_generator "docker-compose.yml"].
Proof.
  apply (save_config_unrecognised default_generator
           (generate_docker_compose default_generator) "docker-compose.yml" "yaml" empty_world);
    discriminate.
Defined.

(** *** Entries of the working directory *)

Lemma split_on_none (sep : ascii) (s : string) :
  contains sep s = false -> split_on sep s = [s].
Proof.
  induction s as [|c s IH]; cbn [contains split_on]; [reflexivity |].
  intros H. apply orb_false_elim in H as [Hc Hs].
  rewrite Ascii.eqb_sym, Hc. now rewrite (IH Hs).
Qed.

Lemma split_on_sep (sep : ascii) (l rest : string) :
  contains sep l = false ->
  split_on sep (l +:+ String sep rest) = l :: split_on sep rest.
Proof.
  induction l as [|c l IH]; cbn [contains split_on String.append].
  - intros _. now rewrite Ascii.eqb_refl.
  - intros H. apply orb_false_elim in H as [Hc Hl].
    rewrite Ascii.eqb_sym, Hc. now rewrite (IH Hl).
Qed.

Lemma plain_name_spec (name : string) :
  plain_name name = true ->
  contains "/" name = false /\ starts_with_slash name = false.
Proof.
  unfold plain_name. intros H. apply negb_true_iff in H. split; [exact H |].
  destruct name as [|c s]; [reflexivity |]. cbn [contains starts_with_slash] in *.
  apply orb_false_elim in H as [H _]. now rewrite Ascii.eqb_sym.
Qed.

(** The path of a filename without directory part stays under the default
    working directory. *)
Lemma default_entry_path (name : string) :
  plain_name name = true ->
  exists rest, filepath default_generator name = "/my-hybrid-service" +:+ rest.
Proof.
  intros H. destruct (plain_name_spec _ H) as (Hsl & Hst).
  unfold filepath, posix_join. cbn [work_dir default_generator]. rewrite Hst.
  change (is_empty "/my-hybrid-service" || ends_with_slash "/my-hybrid-service") with false.
  cbv iota. unfold Path.
  change ("/my-hybrid-service" +:+ "/" +:+ name)
    with (EmptyString +:+ String "/" ("my-hybrid-service" +:+ String "/" name)).
  rewrite (split_on_sep "/" EmptyString) by reflexivity.
  rewrite (split_on_sep "/" "my-hybrid-service") by reflexivity.
  rewrite (split_on_none "/" name Hsl).
  rewrite !filter_cons, filter_nil. cbn [is_empty orb negb String.eqb].
  destruct (is_empty name || String.eqb name ".").
  - exists EmptyString. reflexivity.
  - exists ("/" +:+ name). reflexivity.
Qed.

Lemma readonly_world_with_file_lacks :
  lacks_write_permission readonly_world_with_file (work_dir default_generator).
Proof.
  intros name f _ Ho. unfold readonly_world_with_file in *. cbn [os_open entries] in *.
  destruct (String.eqb _ _); [| discriminate Ho].
  injection Ho as <-. vm_compute. discriminate.
Qed.

Lemma readonly_world_lacks (dir : string) : lacks_write_permission readonly_world dir.
Proof. intros name f _ Ho. discriminate Ho. Qed.

Lemma readonly_world_with_tmp_lacks :
  lacks_write_permission readonly_world_with_tmp (work_dir default_generator).
Proof.
  intros name f Hp Ho.
  change (Path (posix_join (work_dir default_generator) name))
    with (filepath default_generator name) in Ho.
  destruct (default_entry_path _ Hp) as (rest & E). rewrite E in Ho.
  vm_compute in Ho. discriminate Ho.
Qed.

(** C8 as stated fails three times: with a working directory that lacks
    write permission [save_config] returns true when the target is already
    there and the process may overwrite it, when the format is not a
    recognised one, and when the filename leads out of the working
    directory to a place where the file can be made. *)
Lemma save_config_readonly_returns_true :
  ~ returns_false_when_readonly default_generator
      (optimize_for_gpu_memory default_generator) "gpu_optimization.json" "json"
      readonly_world_with_file /\
  ~ returns_false_when_readonly default_generator
      (optimize_for_gpu_memory default_generator) "gpu_optimization.json" "yaml"
      readonly_world /\
  ~ returns_false_when_readonly default_generator
      (optimize_for_gpu_memory default_generator) "/tmp/out.json" "json"
      readonly_world_with_tmp.
Proof.
  split; [| split]; intros H.
  - specialize (H readonly_world_with_file_lacks). vm_compute in H. discriminate H.
  - specialize (H (readonly_world_lacks _)). vm_compute in H. discriminate H.
  - specialize (H readonly_world_with_tmp_lacks). vm_compute in H. discriminate H.
Qed.

(** C8, amended: with a recognised format and a filename without directory
    part, when the working directory lacks write permission and the target
    is not a file that is there already, [open] refuses the target,
    [save_config] logs the error and returns false, and nothing but the log
    has changed: the target is not created and nothing is written. *)
Theorem save_config_readonly_dir (self : ConfigGenerator) (config : pyval)
    (filename format_type : string) (w : world) :
  recognised format_type = true ->
  plain_name filename = true ->
  lacks_write_permission w (work_dir self) ->
  (forall f, os_open w (filepath self filename) = Opened f -> entries w !! f = None) ->
  exists r w',
    os_open w (filepath self filename) = Refused r /\
    save_config self config filename format_type w = (Return false, w') /\
    entries w' = entries w /\
    free_space w' = free_space w /\
    log w' = log w ++ [failed_message (open_exn r)].
Proof.
  intros Hf Hp Hd He.
  destruct (os_open w (filepath self filename)) as [r | f] eqn:Eo.
  - exists r. rewrite save_config_by_body, (save_body_unopened _ _ _ _ _ Hf Eo).
    eexists. repeat split.
  - destruct (Hd filename f Hp Eo). exact (He f eq_refl).
Qed.

Lemma save_config_readonly_dir_witness :
  exists r w',
    os_open readonly_world (filepath default_generator "supervisord.conf") = Refused r /\
    save_config default_generator (generate_supervisor_config default_generator)
                "supervisord.conf" "ini" readonly_world = (Return false, w') /\
    entries w' = entries readonly_world /\
    free_space w' = free_space readonly_world /\
    log w' = log readonly_world ++ [failed_message (open_exn r)].
Proof.
  apply (save_config_readonly_dir default_generator
           (generate_supervisor_config default_generator) "supervisord.conf" "ini"
           readonly_world).
  - reflexivity.
  - reflexivity.
  - intros name f _ H. discriminate H.
  - intros f H. discriminate H.
Defined.

(** ** The JSON round trip *)

(** *** Strings *)

Lemma scanstring_escape_char (c : ascii) (r : string) :
  scanstring (escape_char c +:+ r) = prepend (String c EmptyString) (scanstring r).
Proof. destruct c as [[] [] [] [] [] [] [] []]; reflexivity. Qed.

Lemma scanstring_escape (s r : string) :
  scanstring (escape s +:+ dq +:+ r) = Some (s, r).
Proof.
  induction s as [|c s IH]; [reflexivity |].
  cbn [escape]. rewrite append_assoc, scanstring_escape_char, IH. reflexivity.
Qed.

(** *** Numbers *)

Lemma float_eqb_eq (x y : float) : float_eqb x y = true -> x = y.
Proof.
  destruct x as [s m e], y as [s' m' e']. unfold float_eqb. cbn [f_sign f_mant f_exp].
  intros H. apply andb_prop in H as [H He]. apply andb_prop in H as [Hs Hm].
  apply Bool.eqb_prop in Hs. apply Z.eqb_eq in Hm, He. congruence.
Qed.

Lemma number_ok_spec (text : string) (v : pyval) :
  number_ok text v = true ->
  all_chars is_number_char text = true /\ number_of_text text = Some v.
Proof.
  unfold number_ok. intros H. apply andb_prop in H as [Hc Hv]. split; [exact Hc |].
  destruct (number_of_text text) as [[| | a | a | | |] |]; try discriminate Hv;
    destruct v; try discriminate Hv.
  - apply Z.eqb_eq in Hv. congruence.
  - apply float_eqb_eq in Hv. congruence.
Qed.

Lemma span_number (text rest : string) :
  all_chars is_number_char text = true -> delimited rest = true ->
  span is_number_char (text +:+ rest) = (text, rest).
Proof.
  intros Ht Hr. induction text as [|c t IH]; cbn [String.append span].
  - destruct rest as [|c r]; [reflexivity |]. cbn [span].
    cbn [delimited] in Hr. apply negb_true_iff in Hr. now rewrite Hr.
  - cbn [all_chars] in Ht. apply andb_prop in Ht as [Hc Ht].
    now rewrite Hc, (IH Ht).
Qed.

(** A number character is none of the characters that open another kind of
    value, and no white space. *)
Lemma number_char_head (c : ascii) :
  is_number_char c = true ->
  Ascii.eqb c quote = false /\ Ascii.eqb c "{" = false /\ Ascii.eqb c "[" = false /\
  Ascii.eqb c "n" = false /\ Ascii.eqb c "t" = false /\ Ascii.eqb c "f" = false /\
  Ascii.eqb c "]" = false /\ is_json_ws c = false.
Proof.
  destruct c as [[] [] [] [] [] [] [] []]; intros H;
    first [discriminate H | repeat split; reflexivity].
Qed.

Lemma parse_number (text : string) (v : pyval) (n : nat) (rest : string) :
  number_ok text v = true -> delimited rest = true ->
  parse_value (S n) (text +:+ rest) = Some (v, rest).
Proof.
  intros H Hr. apply number_ok_spec in H as [Hc Hv].
  destruct text as [|c t]; [discriminate Hv |].
  pose proof (span_number _ _ Hc Hr) as Hs.
  cbn [all_chars] in Hc. apply andb_prop in Hc as [Hc _].
  destruct (number_char_head c Hc) as (H1 & H2 & H3 & H4 & H5 & H6 & _).
  cbn [String.append parse_value] in *. rewrite H1, H2, H3, H4, H5, H6, Hs.
  now rewrite Hv.
Qed.

(** *** Integers *)

Lemma digits_value_acc (d : Decimal.uint) (acc : positive) :
  digits_value (Z.pos acc) (NilEmpty.string_of_uint d) = Z.pos (Pos.of_uint_acc d acc).
Proof.
  revert acc. induction d as [| d IH | d IH | d IH | d IH | d IH | d IH | d IH | d IH | d IH | d IH];
    intros acc; cbn [NilEmpty.string_of_uint digits_value Pos.of_uint_acc];
    [reflexivity | rewrite <- IH; f_equal; unfold digit_value; cbn; lia ..].
Qed.

Lemma digits_value_uint (d : Decimal.uint) :
  digits_value 0 (NilEmpty.string_of_uint d) = Z.of_N (Pos.of_uint d).
Proof.
  induction d as [| d IH | d IH | d IH | d IH | d IH | d IH | d IH | d IH | d IH | d IH];
    cbn [NilEmpty.string_of_uint digits_value Pos.of_uint];
    [reflexivity | exact IH | apply digits_value_acc ..].
Qed.

Lemma uint_digits (d : Decimal.uint) :
  all_chars is_digit (NilEmpty.string_of_uint d) = true.
Proof.
  induction d as [| d IH | d IH | d IH | d IH | d IH | d IH | d IH | d IH | d IH | d IH];
    cbn [NilEmpty.string_of_uint all_chars]; [reflexivity | exact IH ..].
Qed.

Lemma span_all (p : ascii -> bool) (s : string) :
  all_chars p s = true -> span p s = (s, EmptyString).
Proof.
  induction s as [|c s IH]; cbn [all_chars span]; [reflexivity |].
  intros H. apply andb_prop in H as [Hc Hs]. now rewrite Hc, (IH Hs).
Qed.

Lemma all_chars_weaken (p q : ascii -> bool) (s : string) :
  (forall c, p c = true -> q c = true) -> all_chars p s = true -> all_chars q s = true.
Proof.
  intros Hpq. induction s as [|c s IH]; cbn [all_chars]; [reflexivity |].
  intros H. apply andb_prop in H as [Hc Hs]. now rewrite (Hpq c Hc), (IH Hs).
Qed.

Lemma nzhead_not_D0 (d u : Decimal.uint) : Decimal.nzhead d <> Decimal.D0 u.
Proof. induction d; cbn [Decimal.nzhead]; solve [discriminate | assumption]. Qed.

(** The decimal digits of a positive number start with no zero. *)
Lemma to_uint_head (p : positive) :
  exists c t, NilEmpty.string_of_uint (Pos.to_uint p) = String c t /\
              is_digit c = true /\ Ascii.eqb c "0" = false.
Proof.
  pose proof (DecimalPos.Unsigned.to_of (Pos.to_uint p)) as H.
  rewrite DecimalPos.Unsigned.of_to in H. cbn [N.to_uint] in H.
  pose proof (DecimalPos.Unsigned.to_uint_nonnil p) as Hnil.
  pose proof (DecimalPos.Unsigned.to_uint_nonzero p) as Hzero.
  destruct (Pos.to_uint p) as [| d | d | d | d | d | d | d | d | d | d];
    [congruence | | do 2 eexists; repeat split ..].
  exfalso. unfold Decimal.unorm in H. cbn [Decimal.nzhead] in H.
  destruct (Decimal.nzhead d) eqn:E; try discriminate H.
  - injection H as H. subst d. now apply Hzero.
  - exact (nzhead_not_D0 _ _ E).
Qed.

Lemma number_of_digits (neg : bool) (c : ascii) (t : string) :
  all_chars is_digit (String c t) = true -> Ascii.eqb c "0" = false ->
  number_of_text (if neg then String "-" (String c t) else String c t)
  = Some (PInt (if neg then - digits_value 0 (String c t) else digits_value 0 (String c t))).
Proof.
  intros Hd Hc. unfold number_of_text.
  assert (Hm : take_minus (if neg then String "-" (String c t) else String c t)
               = (neg, String c t)).
  { destruct neg; [reflexivity |]. cbn [take_minus].
    cbn [all_chars] in Hd. apply andb_prop in Hd as [Hd _].
    destruct (Ascii.eqb_spec c "-") as [-> | _]; [discriminate Hd | reflexivity]. }
  rewrite Hm, (span_all _ _ Hd). cbn [integer_ok]. now rewrite Hc.
Qed.

Lemma string_of_to_uint (p : positive) :
  NilZero.string_of_uint (Pos.to_uint p) = NilEmpty.string_of_uint (Pos.to_uint p).
Proof.
  pose proof (DecimalPos.Unsigned.to_uint_nonnil p) as Hnil.
  destruct (Pos.to_uint p); [congruence | reflexivity ..].
Qed.

Lemma digits_are_number_chars (s : string) :
  all_chars is_digit s = true -> all_chars is_number_char s = true.
Proof.
  apply all_chars_weaken. intros a Ha. unfold is_number_char. now rewrite Ha.
Qed.

(** The text of every [int] reads back as the [int]. *)
Lemma int_repr_ok (z : Z) : number_ok (int_repr z) (PInt z) = true.
Proof.
  destruct z as [| p | p]; [reflexivity | |];
    unfold number_ok, int_repr; cbn [Z.to_int NilZero.string_of_int];
    rewrite string_of_to_uint;
    pose proof (uint_digits (Pos.to_uint p)) as Hd;
    pose proof (digits_value_uint (Pos.to_uint p)) as Hv;
    rewrite DecimalPos.Unsigned.of_to in Hv;
    destruct (to_uint_head p) as (c & t & E & Hc & H0);
    rewrite E in *.
  - rewrite (number_of_digits false c t Hd H0), Hv, (digits_are_number_chars _ Hd).
    apply Z.eqb_refl.
  - rewrite (number_of_digits true c t Hd H0), Hv.
    pose proof (digits_are_number_chars _ Hd) as Hn.
    cbn [all_chars] in *. rewrite Hn. apply Z.eqb_refl.
Qed.

(** *** White space and the head of a text *)

Lemma skip_ws_spaces (n : nat) (s : string) : skip_ws (spaces n +:+ s) = skip_ws s.
Proof. induction n as [|n IH]; [reflexivity | exact IH]. Qed.

Lemma skip_ws_newline_indent (lvl : nat) (s : string) :
  skip_ws (newline_indent lvl +:+ s) = skip_ws s.
Proof.
  unfold newline_indent. rewrite append_assoc.
  change (skip_ws (nl +:+ spaces (2 * lvl) +:+ s)) with (skip_ws (spaces (2 * lvl) +:+ s)).
  apply skip_ws_spaces.
Qed.

Lemma encode_head (lvl : nat) (v : pyval) :
  well_formed v = true ->
  exists c t, encode lvl v = String c t /\ opens_value c = true.
Proof.
  intros H. destruct v as [| [] | z | f | s | [|x l] | [|kv d]];
    try (do 2 eexists; split; [reflexivity | reflexivity]).
  - pose proof (int_repr_ok z) as Hz. apply number_ok_spec in Hz as [Hc Hv]. cbn [encode].
    destruct (int_repr z) as [|c t]; [discriminate Hv |].
    cbn [all_chars] in Hc. apply andb_prop in Hc as [Hc _].
    destruct (number_char_head c Hc) as (_ & _ & _ & _ & _ & _ & H7 & H8).
    exists c, t. unfold opens_value. now rewrite H7, H8.
  - cbn [well_formed] in H. apply number_ok_spec in H as [Hc Hv]. cbn [encode].
    destruct (float_repr f) as [|c t]; [discriminate Hv |].
    cbn [all_chars] in Hc. apply andb_prop in Hc as [Hc _].
    destruct (number_char_head c Hc) as (_ & _ & _ & _ & _ & _ & H7 & H8).
    exists c, t. unfold opens_value. now rewrite H7, H8.
Qed.

Lemma skip_ws_encode (lvl : nat) (v : pyval) (r : string) :
  well_formed v = true -> skip_ws (encode lvl v +:+ r) = encode lvl v +:+ r.
Proof.
  intros H. destruct (encode_head lvl v H) as (c & t & -> & Hc).
  unfold opens_value in Hc. apply andb_prop in Hc as [Hc _].
  apply negb_true_iff in Hc. cbn [String.append skip_ws]. now rewrite Hc.
Qed.

(** *** Dicts without repeated keys *)

Lemma dict_set_fresh (k : string) (v : pyval) (d : pydict) :
  existsb (String.eqb k) (dict_keys d) = false -> dict_set k v d = d ++ [(k, v)].
Proof.
  induction d as [|[k' v'] d IH]; cbn [dict_set dict_keys map existsb fst app];
    [reflexivity |].
  intros H. apply orb_false_elim in H as [Hk Hd].
  rewrite Hk. now rewrite (IH Hd).
Qed.

Lemma existsb_keys_app (k : string) (d d' : pydict) :
  existsb (String.eqb k) (dict_keys (d ++ d'))
  = existsb (String.eqb k) (dict_keys d) || existsb (String.eqb k) (dict_keys d').
Proof. unfold dict_keys. now rewrite map_app, existsb_app. Qed.

Lemma py_dict_from (acc pairs : pydict) :
  keys_distinct pairs = true ->
  (forall kv, In kv pairs -> existsb (String.eqb (fst kv)) (dict_keys acc) = false) ->
  fold_left (fun d kv => dict_set (fst kv) (snd kv) d) pairs acc = acc ++ pairs.
Proof.
  revert acc. induction pairs as [|[k v] pairs IH]; intros acc Hd Hacc; cbn [fold_left].
  - now rewrite app_nil_r.
  - cbn [keys_distinct fst] in Hd. apply andb_prop in Hd as [Hk Hd].
    apply negb_true_iff in Hk.
    rewrite dict_set_fresh by (apply (Hacc (k, v)); now left).
    rewrite IH; [now rewrite <- app_assoc | exact Hd |].
    intros kv Hin. rewrite existsb_keys_app. cbn [dict_keys map existsb fst].
    rewrite (Hacc kv) by (now right). rewrite orb_false_r. cbn [orb].
    destruct (String.eqb_spec (fst kv) k) as [E | _]; [| reflexivity].
    rewrite <- Hk, <- E. symmetry. apply existsb_exists.
    exists (fst kv). split; [now apply in_map | apply String.eqb_refl].
Qed.

Lemma py_dict_distinct (d : pydict) : keys_distinct d = true -> py_dict d = d.
Proof. intros H. unfold py_dict. now rewrite py_dict_from. Qed.

(** *** Values *)

Lemma encode_list (lvl : nat) (x : pyval) (l : list pyval) :
  encode lvl (PList (x :: l))
  = "[" +:+ newline_indent (S lvl) +:+
    join (item_separator lvl) (map (encode (S lvl)) (x :: l)) +:+
    newline_indent lvl +:+ "]".
Proof. reflexivity. Qed.

Lemma encode_dict (lvl : nat) (kv : string * pyval) (d : pydict) :
  encode lvl (PDict (kv :: d))
  = "{" +:+ newline_indent (S lvl) +:+
    join (item_separator lvl) (map (member lvl) (kv :: d)) +:+
    newline_indent lvl +:+ "}".
Proof. reflexivity. Qed.

Lemma join_head {A : Type} (sep : string) (f : A -> string) (x : A) (l : list A) :
  exists u, join sep (map f (x :: l)) = f x +:+ u.
Proof.
  destruct l as [|y l].
  - exists EmptyString. cbn [map join]. now rewrite append_nil_r.
  - eexists. cbn [map]. rewrite join_cons2. reflexivity.
Qed.

Lemma delimited_newline_indent (lvl : nat) (s : string) :
  delimited (newline_indent lvl +:+ s) = true.
Proof. reflexivity. Qed.

Lemma list_sum_cons (a : nat) (l : list nat) : list_sum (a :: l) = (a + list_sum l)%nat.
Proof. reflexivity. Qed.

Lemma parse_elements_join (lvl : nat) (l : list pyval) :
  List.Forall parses l -> forallb well_formed l = true -> l <> [] ->
  forall (fuel : nat) (rest : string),
    (list_sum (map (fun x => S (need x)) l) <= fuel)%nat ->
    parse_elements fuel
      (join (item_separator lvl) (map (encode (S lvl)) l) +:+
       newline_indent lvl +:+ "]" +:+ rest)
    = Some (l, rest).
Proof.
  induction l as [|x l IH]; [congruence |].
  intros HP Hwf _ fuel rest Hfuel.
  inversion HP as [|? ? Hx Hl]; subst.
  cbn [forallb] in Hwf. apply andb_prop in Hwf as [Hwx Hwl].
  cbn [map] in Hfuel. rewrite list_sum_cons in Hfuel.
  destruct fuel as [|n]; [lia |]. cbn [parse_elements].
  destruct l as [|y l].
  - cbn [map join].
    rewrite (Hx (S lvl) n) by (try apply delimited_newline_indent; lia).
    cbn [mbind option_bind]. rewrite skip_ws_newline_indent. reflexivity.
  - cbn [map]. rewrite join_cons2, !append_assoc.
    rewrite (Hx (S lvl) n) by (try reflexivity; lia).
    cbn [mbind option_bind].
    change (skip_ws (item_separator lvl +:+ ?s)) with (item_separator lvl +:+ s).
    unfold item_separator at 1. cbn [String.append].
    change (Ascii.eqb "," "]") with false. change (Ascii.eqb "," ",") with true. cbn iota.
    rewrite skip_ws_newline_indent.
    change (encode (S lvl) y :: map (encode (S lvl)) l)
      with (map (encode (S lvl)) (y :: l)).
    destruct (join_head (item_separator lvl) (encode (S lvl)) y l) as (u & Eu).
    cbn [forallb] in Hwl. apply andb_prop in Hwl as [Hwy Hwl'].
    rewrite Eu at 1. rewrite append_assoc, (skip_ws_encode _ _ _ Hwy).
    rewrite <- append_assoc, <- Eu.
    change (String "]" rest) with ("]" +:+ rest).
    rewrite IH; [reflexivity | exact Hl | cbn [forallb]; now rewrite Hwy | congruence |].
    lia.
Qed.

Lemma String_inj (c : ascii) (s t : string) : String c s = String c t -> s = t.
Proof. intros H. now injection H. Qed.

Lemma member_text (lvl : nat) (kv : string * pyval) (u : string) :
  member lvl kv +:+ u
  = String quote (escape (fst kv) +:+ dq +:+ ": " +:+ encode (S lvl) (snd kv) +:+ u).
Proof.
  unfold member, encode_str. rewrite !append_assoc. reflexivity.
Qed.

Lemma parse_members_join (lvl : nat) (d : pydict) :
  List.Forall (fun kv => parses (snd kv)) d ->
  forallb (fun kv => well_formed (snd kv)) d = true -> d <> [] ->
  forall (fuel : nat) (rest text : string),
    (list_sum (map (fun kv => S (need (snd kv))) d) <= fuel)%nat ->
    String quote text
      = join (item_separator lvl) (map (member lvl) d) +:+
        newline_indent lvl +:+ "}" +:+ rest ->
    parse_members fuel text = Some (d, rest).
Proof.
  induction d as [|[k v] d IH]; [congruence |].
  intros HP Hwf _ fuel rest text Hfuel Htext.
  inversion HP as [|? ? Hx Hl]; subst.
  cbn [forallb snd] in Hwf. apply andb_prop in Hwf as [Hwx Hwl]. cbn [snd] in Hx.
  cbn [map snd] in Hfuel. rewrite list_sum_cons in Hfuel.
  destruct fuel as [|n]; [lia |]. cbn [parse_members].
  destruct d as [|kv' d].
  - cbn [map join] in Htext. rewrite member_text in Htext. cbn [fst snd] in Htext.
    apply String_inj in Htext. subst text. rewrite scanstring_escape. cbn [mbind option_bind].
    change (skip_ws (": " +:+ ?s)) with (String ":" (String " " s)).
    change (Ascii.eqb ":" ":") with true. cbn iota.
    change (skip_ws (String " " ?s)) with (skip_ws s).
    rewrite (skip_ws_encode _ _ _ Hwx).
    rewrite (Hx (S lvl) n) by (try apply delimited_newline_indent; lia).
    cbn [mbind option_bind]. rewrite skip_ws_newline_indent. reflexivity.
  - cbn [map] in Htext. rewrite join_cons2, !append_assoc, member_text in Htext. cbn [fst snd] in Htext.
    apply String_inj in Htext. subst text. rewrite scanstring_escape. cbn [mbind option_bind].
    change (skip_ws (": " +:+ ?s)) with (String ":" (String " " s)).
    change (Ascii.eqb ":" ":") with true. cbn iota.
    change (skip_ws (String " " ?s)) with (skip_ws s).
    rewrite (skip_ws_encode _ _ _ Hwx).
    rewrite (Hx (S lvl) n) by (try reflexivity; lia).
    cbn [mbind option_bind].
    change (skip_ws (item_separator lvl +:+ ?s)) with (item_separator lvl +:+ s).
    unfold item_separator at 1. cbn [String.append].
    change (Ascii.eqb "," "}") with false. change (Ascii.eqb "," ",") with true. cbn iota.
    rewrite skip_ws_newline_indent.
    change (member lvl kv' :: map (member lvl) d) with (map (member lvl) (kv' :: d)).
    destruct (join_head (item_separator lvl) (member lvl) kv' d) as (u & Eu).
    pose proof Eu as Eq. rewrite <- (append_nil_r (member lvl kv' +:+ u)) in Eq.
    rewrite append_assoc, member_text in Eq.
    set (J := join (item_separator lvl) (map (member lvl) (kv' :: d))) in *.
    assert (Etext : J +:+ newline_indent lvl +:+ String "}" rest
                    = String quote (escape (fst kv') +:+ dq +:+ ": " +:+
                                    encode (S lvl) (snd kv') +:+ u +:+
                                    newline_indent lvl +:+ String "}" rest)).
    { rewrite Eu, append_assoc. apply member_text. }
    rewrite Etext. cbn [skip_ws]. change (is_json_ws quote) with false. cbn iota.
    change (Ascii.eqb quote quote) with true. cbn iota.
    rewrite (IH Hl Hwl ltac:(congruence) n rest); [reflexivity | lia |].
    symmetry. exact Etext.
Qed.

(** The text of a well-formed document reads back as the document. *)
Lemma parse_encode (v : pyval) : well_formed v = true -> parses v.
Proof.
  induction v as [| b | z | f | s | l IH | d IH] using pyval_nested_ind;
    intros Hwf lvl fuel rest Hfuel Hrest;
    (destruct fuel as [|n]; [cbn [need] in Hfuel; lia |]).
  - reflexivity.
  - destruct b; reflexivity.
  - apply parse_number; [apply int_repr_ok | exact Hrest].
  - now apply parse_number.
  - cbn [encode]. unfold encode_str. rewrite !append_assoc.
    change (parse_value (S n) (dq +:+ ?t)) with ('(t', r) ← scanstring t; Some (PStr t', r)).
    now rewrite scanstring_escape.
  - destruct l as [|x l]; [reflexivity |].
    rewrite encode_list, !append_assoc.
    change (parse_value (S n) ("[" +:+ ?t))
      with (match skip_ws t with
            | EmptyString => None
            | String c1 r1 =>
                if Ascii.eqb c1 "]" then Some (PList [], r1)
                else '(l', r2) ← parse_elements n (String c1 r1); Some (PList l', r2)
            end).
    rewrite skip_ws_newline_indent.
    cbn [well_formed] in Hwf. pose proof Hwf as Hwl.
    cbn [forallb] in Hwf. apply andb_prop in Hwf as [Hwx _].
    destruct (join_head (item_separator lvl) (encode (S lvl)) x l) as (u & Eu).
    destruct (encode_head (S lvl) x Hwx) as (c & t & Ec & Hc).
    unfold opens_value in Hc. apply andb_prop in Hc as [Hws Hbr].
    apply negb_true_iff in Hws, Hbr.
    set (T := join (item_separator lvl) (map (encode (S lvl)) (x :: l)) +:+
              newline_indent lvl +:+ "]" +:+ rest).
    assert (ET : T = String c (t +:+ u +:+ newline_indent lvl +:+ "]" +:+ rest)).
    { subst T. rewrite Eu, Ec, !append_assoc. reflexivity. }
    rewrite ET. cbn [skip_ws]. rewrite Hws, Hbr, <- ET. subst T.
    rewrite parse_elements_join; [reflexivity | | exact Hwl | congruence |].
    + clear -IH Hwl. induction IH as [|y l' Hy Hl' IHl]; constructor.
      * cbn [forallb] in Hwl. apply andb_prop in Hwl as [Hwy _]. exact (Hy Hwy).
      * cbn [forallb] in Hwl. apply andb_prop in Hwl as [_ Hwl]. exact (IHl Hwl).
    + cbn [need] in Hfuel. lia.
  - destruct d as [|kv d]; [reflexivity |].
    rewrite encode_dict, !append_assoc.
    change (parse_value (S n) ("{" +:+ ?t))
      with (match skip_ws t with
            | EmptyString => None
            | String c1 r1 =>
                if Ascii.eqb c1 "}" then Some (PDict [], r1)
                else if Ascii.eqb c1 quote then
                  '(d', r2) ← parse_members n r1; Some (PDict (py_dict d'), r2)
                else None
            end).
    rewrite skip_ws_newline_indent.
    cbn [well_formed] in Hwf. apply andb_prop in Hwf as [Hkeys Hwd].
    destruct (join_head (item_separator lvl) (member lvl) kv d) as (u & Eu).
    set (T := join (item_separator lvl) (map (member lvl) (kv :: d)) +:+
              newline_indent lvl +:+ "}" +:+ rest).
    assert (ET : T = String quote (escape (fst kv) +:+ dq +:+ ": " +:+
                                   encode (S lvl) (snd kv) +:+ u +:+
                                   newline_indent lvl +:+ "}" +:+ rest)).
    { subst T. rewrite Eu, append_assoc. apply member_text. }
    rewrite ET. cbn [skip_ws]. change (is_json_ws quote) with false. cbn iota.
    change (Ascii.eqb quote "}") with false. change (Ascii.eqb quote quote) with true.
    cbn iota.
    rewrite (parse_members_join lvl (kv :: d)) with (rest := rest).
    + cbn [mbind option_bind]. now rewrite (py_dict_distinct _ Hkeys).
    + clear -IH Hwd. induction IH as [|y l' Hy Hl' IHl]; constructor.
      * cbn [forallb] in Hwd. apply andb_prop in Hwd as [Hwy _]. exact (Hy Hwy).
      * cbn [forallb] in Hwd. apply andb_prop in Hwd as [_ Hwd]. exact (IHl Hwd).
    + exact Hwd.
    + congruence.
    + cbn [need] in Hfuel. lia.
    + symmetry. exact ET.
Qed.

(** *** Fuel *)

Lemma length_join (sep : string) (ts : list string) :
  sep <> EmptyString ->
  (list_sum (map (fun t => S (String.length t)) ts) <= S (String.length (join sep ts)))%nat.
Proof.
  intros Hsep. induction ts as [|t ts IH]; [cbn; lia |].
  cbn [map]. rewrite list_sum_cons. destruct ts as [|u ts]; [cbn; lia |].
  rewrite join_cons2, !append_length.
  destruct sep as [|c sep]; [congruence |]. cbn [String.length] in *. lia.
Qed.

Lemma list_sum_le {A : Type} (f g : A -> nat) (l : list A) :
  List.Forall (fun x => (f x <= g x)%nat) l ->
  (list_sum (map f l) <= list_sum (map g l))%nat.
Proof.
  induction 1 as [|x l Hx Hl IH]; [reflexivity |].
  cbn [map]. rewrite !list_sum_cons. lia.
Qed.

Lemma length_newline_indent (lvl : nat) : (1 <= String.length (newline_indent lvl))%nat.
Proof. unfold newline_indent. cbn [nl String.append String.length]. lia. Qed.

Lemma number_text_length (text : string) (v : pyval) :
  number_ok text v = true -> (1 <= String.length text)%nat.
Proof.
  intros H. apply number_ok_spec in H as [_ H].
  destruct text; [discriminate H | cbn; lia].
Qed.

(** The text of a document is at least as long as the fuel reading it takes. *)
Lemma need_le_length (v : pyval) :
  well_formed v = true -> forall lvl, (need v <= String.length (encode lvl v))%nat.
Proof.
  induction v as [| b | z | f | s | l IH | d IH] using pyval_nested_ind; intros Hwf lvl.
  - cbn; lia.
  - destruct b; cbn; lia.
  - exact (number_text_length (int_repr z) (PInt z) (int_repr_ok z)).
  - exact (number_text_length (float_repr f) (PFloat f) Hwf).
  - cbn [encode need]. unfold encode_str. cbn [dq String.append String.length]. lia.
  - destruct l as [|x l]; [cbn; lia |].
    rewrite encode_list, !append_length. cbn [need].
    pose proof (length_newline_indent (S lvl)). pose proof (length_newline_indent lvl).
    pose proof (length_join (item_separator lvl) (map (encode (S lvl)) (x :: l))
                  ltac:(discriminate)) as HJ.
    rewrite map_map in HJ.
    assert (HS : (list_sum (map (fun y => S (need y)) (x :: l))
                  <= list_sum (map (fun y => S (String.length (encode (S lvl) y))) (x :: l)))%nat).
    { apply list_sum_le. cbn [well_formed] in Hwf. clear -IH Hwf.
      induction IH as [|y l' Hy Hl' IHl]; constructor;
        cbn [forallb] in Hwf; apply andb_prop in Hwf as [Hwy Hwl].
      - specialize (Hy Hwy (S lvl)). lia.
      - exact (IHl Hwl). }
    cbn [String.length] in *. lia.
  - destruct d as [|kv d]; [cbn; lia |].
    rewrite encode_dict, !append_length. cbn [need].
    pose proof (length_newline_indent (S lvl)). pose proof (length_newline_indent lvl).
    pose proof (length_join (item_separator lvl) (map (member lvl) (kv :: d))
                  ltac:(discriminate)) as HJ.
    rewrite map_map in HJ.
    assert (HS : (list_sum (map (fun y => S (need (snd y))) (kv :: d))
                  <= list_sum (map (fun y => S (String.length (member lvl y))) (kv :: d)))%nat).
    { apply list_sum_le. cbn [well_formed] in Hwf. apply andb_prop in Hwf as [_ Hwf].
      clear -IH Hwf.
      induction IH as [|y l' Hy Hl' IHl]; constructor;
        cbn [forallb] in Hwf; apply andb_prop in Hwf as [Hwy Hwl].
      - specialize (Hy Hwy (S lvl)). unfold member. rewrite !append_length. lia.
      - exact (IHl Hwl). }
    cbn [String.length] in *. lia.
Qed.

(** The round-trip law of [json.dump] and [json.load] on well-formed
    documents. *)
Lemma json_roundtrip (v : pyval) :
  well_formed v = true -> json_loads (json_dumps v) = Some v.
Proof.
  intros Hwf. unfold json_loads, json_dumps.
  pose proof (skip_ws_encode 0 v EmptyString Hwf) as Hs.
  rewrite append_nil_r in Hs. rewrite Hs.
  pose proof (parse_encode v Hwf 0%nat (S (String.length (encode 0 v))) EmptyString) as Hp.
  rewrite append_nil_r in Hp. rewrite Hp; [reflexivity | | reflexivity].
  pose proof (need_le_length v Hwf 0%nat). lia.
Qed.

Lemma supervisor_config_well_formed (self : ConfigGenerator) :
  well_formed (generate_supervisor_config self) = true.
Proof. vm_compute. reflexivity. Qed.

Lemma workflows_well_formed : well_formed (PDict workflows) = true.
Proof. vm_compute. reflexivity. Qed.

Lemma tuning_profile_well_formed (self : ConfigGenerator) :
  well_formed (optimize_for_gpu_memory self) = true.
Proof.
  unfold optimize_for_gpu_memory.
  destruct (24 <=? gpu_memory_gb self); [vm_compute; reflexivity |].
  destruct (12 <=? gpu_memory_gb self); vm_compute; reflexivity.
Qed.

(** C9: the supervisor configuration, the workflow graph of any variant and
    the GPU tuning profile, written as [save_config] writes JSON and read
    back, give the same document. *)
Theorem generated_json_round_trip (self : ConfigGenerator) (workflow_type : string) :
  json_loads (json_dumps (generate_supervisor_config self))
    = Some (generate_supervisor_config self) /\
  (exists graph,
     generate_comfyui_workflow self workflow_type = Return graph /\
     json_loads (json_dumps graph) = Some graph) /\
  json_loads (json_dumps (optimize_for_gpu_memory self))
    = Some (optimize_for_gpu_memory self).
Proof.
  split; [| split].
  - apply json_roundtrip, supervisor_config_well_formed.
  - destruct (generate_comfyui_workflow_basic self workflow_type) as (graph & E & ->).
    exists graph. split; [reflexivity |]. apply json_roundtrip.
    injection E as <-. vm_compute. reflexivity.
  - apply json_roundtrip, tuning_profile_well_formed.
Qed.

(** * Further properties *)

(** ** The writes of [save_config] *)

(** X1: whatever the document, the filename, the format and the state of
    the file system, a call of [save_config] adds exactly one record to the
    log (the saved message when it returns true, an error when it returns
    false), does not change what the system answers, and leaves every file
    other than the one its target names as it was. *)
Theorem save_config_frame (self : ConfigGenerator) (config : pyval)
    (filename format_type : string) (w : world) :
  exists b w' r,
    save_config self config filename format_type w = (Return b, w') /\
    log w' = log w ++ [r] /\
    (b = true /\ r = saved_message self filename \/
     b = false /\ exists e, r = failed_message e) /\
    os_open w' = os_open w /\
    forall f, os_open w (filepath self filename) <> Opened f ->
              entries w' !! f = entries w !! f.
Proof.
  rewrite save_config_by_body.
  destruct (save_body config (filepath self filename) format_type w)
    as [[[] | e] w1] eqn:E;
    destruct (keeps_save_body _ _ _ _ _ _ E) as (H1 & H2 & H3).
  - exists true, (add_log w1 (saved_message self filename)), (saved_message self filename).
    cbn [add_log log os_open entries]. rewrite H2. auto 10.
  - exists false, (add_log w1 (failed_message e)), (failed_message e).
    cbn [add_log log os_open entries]. rewrite H2.
    repeat split; auto. right. eauto.
Qed.

Lemma supervisor_ini_valid (self : ConfigGenerator) :
  utf8_valid (work_dir self) = true -> utf8_valid (comfyui_dir self) = true ->
  ini_valid (dict_items (Some (generate_supervisor_config self))) = true.
Proof.
  intros Hw Hc. unfold generate_supervisor_config, venv_path, ini_valid, ini_line.
  cbn [dict_items forallb fst snd py_str andb].
  repeat (apply andb_true_intro; split); utf8.
Qed.

(** X2: the supervisor configuration in the INI layout.  The document is
    written section by section: the header in brackets, one [key = value]
    line for each key, then an empty line; strings are written as they are,
    without quotes.  For directories whose names can be encoded, a target
    that opens and a device with room for the text, [save_config] returns
    true and the file holds exactly this text, which starts with the
    sections of the control socket and of the daemon. *)
Theorem save_config_ini_layout (self : ConfigGenerator) (filename : string) (f : inode)
    (w : world) :
  let text := ini_text (dict_items (Some (generate_supervisor_config self))) in
  utf8_valid (work_dir self) = true ->
  utf8_valid (comfyui_dir self) = true ->
  os_open w (filepath self filename) = Opened f ->
  (String.length text <= space_after_open w f)%nat ->
  exists w',
    save_config self (generate_supervisor_config self) filename "ini" w = (Return true, w') /\
    entries w' !! f = Some text /\
    exists rest,
      text = "[unix_http_server]" +:+ nl +:+
             "file = /tmp/supervisor.sock" +:+ nl +:+
             "chmod = 0700" +:+ nl +:+
             nl +:+
             "[supervisord]" +:+ nl +:+
             "logfile = " +:+ work_dir self +:+ "/logs/supervisord.log" +:+ nl +:+ rest.
Proof.
  intros text Hw Hc Ho Hl.
  rewrite (save_config_saved self (generate_supervisor_config self) filename "ini" text f);
    [| reflexivity | exact (supervisor_ini_valid self Hw Hc) | exact Ho | exact Hl].
  eexists. split; [reflexivity |]. split.
  - cbn [saved_world entries]. apply lookup_insert_eq.
  - subst text. unfold generate_supervisor_config, ini_text, ini_section, ini_line.
    cbn [dict_items map concat_strings fst snd py_str].
    rewrite !append_assoc. cbn [String.append].
    eexists. reflexivity.
Qed.

Lemma save_config_ini_layout_witness :
  exists w',
    save_config default_generator (generate_supervisor_config default_generator)
                "supervisord.conf" "ini" empty_world = (Return true, w') /\
    entries w' !! countable.encode "/my-hybrid-service/supervisord.conf"
      = Some (ini_text (dict_items (Some (generate_supervisor_config default_generator)))) /\
    exists rest,
      ini_text (dict_items (Some (generate_supervisor_config default_generator)))
      = "[unix_http_server]" +:+ nl +:+
        "file = /tmp/supervisor.sock" +:+ nl +:+
        "chmod = 0700" +:+ nl +:+
        nl +:+
        "[supervisord]" +:+ nl +:+
        "logfile = " +:+ work_dir default_generator +:+ "/logs/supervisord.log" +:+ nl +:+ rest.
Proof.
  apply (save_config_ini_layout default_generator "supervisord.conf"
           (countable.encode "/my-hybrid-service/supervisord.conf") empty_world).
  - reflexivity.
  - reflexivity.
  - reflexivity.
  - apply Nat.leb_le. vm_compute. reflexivity.
Defined.

(** X3: the INI writer opens the target before it looks at the document.
    Given a document that is not a mapping (the proxy configuration text,
    say) and a target that opens, [save_config] logs the [AttributeError]
    and returns false, and leaves the target as an empty file, whatever it
    held before. *)
Theorem save_config_ini_not_a_dict (self : ConfigGenerator) (config : pyval)
    (filename : string) (f : inode) (w : world) :
  is_dict config = false ->
  os_open w (filepath self filename) = Opened f ->
  exists w',
    save_config self config filename "ini" w = (Return false, w') /\
    entries w' !! f = Some EmptyString /\
    log w' = log w ++ [failed_message AttributeError].
Proof.
  intros Hd Ho. rewrite save_config_by_body.
  unfold save_body, write_ini, mbind, M_bind. cbn [String.eqb Ascii.eqb Bool.eqb].
  rewrite (open_w_opened _ _ _ Ho).
  destruct config; try discriminate Hd; cbn [lift items];
    (eexists; split; [reflexivity |]; split; [apply lookup_insert_eq | reflexivity]).
Qed.

Lemma save_config_ini_not_a_dict_witness :
  exists w',
    save_config default_generator (PStr (generate_nginx_config default_generator None))
                "gpu_optimization.json" "ini" readonly_world_with_file = (Return false, w') /\
    entries w' !! 1%positive = Some EmptyString /\
    log w' = log readonly_world_with_file ++ [failed_message AttributeError].
Proof.
  apply (save_config_ini_not_a_dict default_generator
           (PStr (generate_nginx_config default_generator None))
           "gpu_optimization.json" 1%positive readonly_world_with_file); reflexivity.
Defined.

Lemma tuning_profile_valid (self : ConfigGenerator) :
  utf8_valid (json_dumps (optimize_for_gpu_memory self)) = true.
Proof.
  unfold optimize_for_gpu_memory.
  destruct (24 <=? gpu_memory_gb self); [vm_compute; reflexivity |].
  destruct (12 <=? gpu_memory_gb self); vm_compute; reflexivity.
Qed.

Lemma workflow_basic (self : ConfigGenerator) (workflow_type : string) (config : pyval) :
  generate_comfyui_workflow self workflow_type = Return config ->
  config = dict_get_default "basic" workflows PNone.
Proof.
  intros H. destruct (generate_comfyui_workflow_basic self workflow_type)
    as (basic & Hb & Eg).
  rewrite H in Eg. injection Eg as ->. injection Hb as <-. reflexivity.
Qed.

(** X4: a tuning profile or a workflow graph written by [save_config] reads
    back as the document.  For the profile of the generator or the graph of
    any variant, a target that opens and a device with room for the text,
    [save_config] returns true in the JSON format and [json.loads] of the
    content of the file is the document that was saved. *)
Theorem save_config_json_reload (self : ConfigGenerator) (config : pyval)
    (filename workflow_type : string) (f : inode) (w : world) :
  config = optimize_for_gpu_memory self \/
  generate_comfyui_workflow self workflow_type = Return config ->
  os_open w (filepath self filename) = Opened f ->
  (String.length (json_dumps config) <= space_after_open w f)%nat ->
  exists w' content,
    save_config self config filename "json" w = (Return true, w') /\
    entries w' !! f = Some content /\
    json_loads content = Some config.
Proof.
  intros Hc Ho Hl.
  assert (Hv : utf8_valid (json_dumps config) = true /\ well_formed config = true).
  { destruct Hc as [-> | Hc].
    - split; [apply tuning_profile_valid | apply tuning_profile_well_formed].
    - rewrite (workflow_basic _ _ _ Hc). split; vm_compute; reflexivity. }
  destruct Hv as [Hv Hwf].
  rewrite (save_config_saved self config filename "json" (json_dumps config) f);
    [| reflexivity | exact Hv | exact Ho | exact Hl].
  do 2 eexists. split; [reflexivity |]. split.
  - cbn [saved_world entries]. apply lookup_insert_eq.
  - now apply json_roundtrip.
Qed.

Lemma save_config_json_reload_witness :
  exists w' content,
    save_config default_generator (optimize_for_gpu_memory default_generator)
                "gpu_optimization.json" "json" readonly_world_with_file = (Return true, w') /\
    entries w' !! 1%positive = Some content /\
    json_loads content = Some (optimize_for_gpu_memory default_generator).
Proof.
  apply (save_config_json_reload default_generator
           (optimize_for_gpu_memory default_generator) "gpu_optimization.json" "basic"
           1%positive readonly_world_with_file).
  - left. reflexivity.
  - reflexivity.
  - apply Nat.leb_le. vm_compute. reflexivity.
Defined.

(** X5: saving again what was just saved changes nothing but the log.  If a
    text that can be encoded is saved in the text format to a target that
    opens and has room for it, the file holds the text, and a second
    identical call succeeds too and leaves the files and the free space as
    the first one left them: the file is rewritten in full, not appended
    to. *)
Theorem save_config_twice (self : ConfigGenerator) (text filename : string) (f : inode)
    (w : world) :
  utf8_valid text = true ->
  os_open w (filepath self filename) = Opened f ->
  (String.length text <= space_after_open w f)%nat ->
  exists w1 w2,
    save_config self (PStr text) filename "text" w = (Return true, w1) /\
    save_config self (PStr text) filename "text" w1 = (Return true, w2) /\
    entries w1 !! f = Some text /\
    entries w2 = entries w1 /\
    free_space w2 = free_space w1 /\
    log w2 = log w1 ++ [saved_message self filename].
Proof.
  intros Hv Ho Hl. exists (saved_world self filename f text w).
  assert (Hsp : space_after_open (saved_world self filename f text w) f
                = space_after_open w f).
  { unfold space_after_open at 1. cbn [saved_world free_space entries].
    rewrite lookup_insert_eq. cbn [default]. unfold id. lia. }
  exists (saved_world self filename f text (saved_world self filename f text w)).
  split; [now apply save_config_saved |].
  split; [apply save_config_saved; [reflexivity | exact Hv | exact Ho | now rewrite Hsp] |].
  split; [cbn [saved_world entries]; apply lookup_insert_eq |].
  split; [cbn [saved_world entries]; apply insert_insert_eq |].
  split; [cbn [saved_world free_space]; now rewrite Hsp | reflexivity].
Qed.

Lemma save_config_twice_witness :
  exists w1 w2,
    save_config default_generator (PStr (generate_nginx_config default_generator None))
                "nginx_site.conf" "text" empty_world = (Return true, w1) /\
    save_config default_generator (PStr (generate_nginx_config default_generator None))
                "nginx_site.conf" "text" w1 = (Return true, w2) /\
    entries w1 !! countable.encode "/my-hybrid-service/nginx_site.conf"
      = Some (generate_nginx_config default_generator None) /\
    entries w2 = entries w1 /\
    free_space w2 = free_space w1 /\
    log w2 = log w1 ++ [saved_message default_generator "nginx_site.conf"].
Proof.
  apply (save_config_twice default_generator
           (generate_nginx_config default_generator None) "nginx_site.conf"
           (countable.encode "/my-hybrid-service/nginx_site.conf") empty_world).
  - vm_compute. reflexivity.
  - reflexivity.
  - apply Nat.leb_le. vm_compute. reflexivity.
Defined.

(** ** The probe and the profile *)

Lemma _get_gpu_memory_reads (stdout : string) (mib : Z) (w : world) :
  py_int (first_line stdout) = Some mib ->
  _get_gpu_memory (Completed 0 stdout) w = (Return (mib `div` 1024), w).
Proof.
  intros H. unfold _get_gpu_memory, try_except, mbind, M_bind, lift, int_of_str.
  cbn [subprocess_run_stdout Z.eqb]. now rewrite first_item_first_line, H.
Qed.

Lemma tier_of_memory (self : ConfigGenerator) :
  tier (optimize_for_gpu_memory self)
  = Some (PStr (if 24 <=? gpu_memory_gb self then "high_memory"
                else if 12 <=? gpu_memory_gb self then "medium_memory"
                else "low_memory")).
Proof.
  unfold optimize_for_gpu_memory, tier.
  destruct (24 <=? gpu_memory_gb self); [reflexivity |].
  destruct (12 <=? gpu_memory_gb self); reflexivity.
Qed.

(** X6: the tiers in terms of what the probe prints.  When the probe exits
    with code 0 and prints ASCII text of at most 4300 characters whose
    first line is the integer [mib], the constructor logs nothing and
    returns a generator with [gpu_memory_gb = mib // 1024], whose profile is
    the high-memory one exactly from 24576 MiB, the medium one from 12288
    MiB up to 24575, the low-memory one below 12288. *)
Theorem init_memory_tiers (work_dir comfyui_dir stdout : string) (mib : Z) (w : world) :
  ascii_text stdout = true ->
  (String.length stdout <= 4300)%nat ->
  py_int (first_line stdout) = Some mib ->
  exists self,
    __init__ work_dir comfyui_dir (Completed 0 stdout) w = (Return self, w) /\
    gpu_memory_gb self = mib `div` 1024 /\
    (tier (optimize_for_gpu_memory self) = Some (PStr "high_memory") <-> 24576 <= mib) /\
    (tier (optimize_for_gpu_memory self) = Some (PStr "medium_memory")
       <-> 12288 <= mib < 24576) /\
    (tier (optimize_for_gpu_memory self) = Some (PStr "low_memory") <-> mib < 12288).
Proof.
  intros _ _ H. unfold __init__, mbind, M_bind. rewrite (_get_gpu_memory_reads _ _ _ H).
  eexists. split; [reflexivity |]. split; [reflexivity |].
  rewrite tier_of_memory. cbn [gpu_memory_gb].
  pose proof (Z.div_mod mib 1024 ltac:(lia)) as Hd.
  pose proof (Z.mod_pos_bound mib 1024 ltac:(lia)) as Hm.
  destruct (Z.leb_spec 24 (mib `div` 1024)); [| destruct (Z.leb_spec 12 (mib `div` 1024))];
    repeat split; intros; try discriminate; try reflexivity; lia.
Qed.

Lemma init_memory_tiers_witness :
  exists self,
    __init__ "/my-hybrid-service" "/workspace/ComfyUI"
             (Completed 0 ("24575" +:+ nl +:+ "81920" +:+ nl)) empty_world
      = (Return self, empty_world) /\
    gpu_memory_gb self = 24575 `div` 1024 /\
    (tier (optimize_for_gpu_memory self) = Some (PStr "high_memory") <-> 24576 <= 24575) /\
    (tier (optimize_for_gpu_memory self) = Some (PStr "medium_memory")
       <-> 12288 <= 24575 < 24576) /\
    (tier (optimize_for_gpu_memory self) = Some (PStr "low_memory") <-> 24575 < 12288).
Proof.
  apply (init_memory_tiers "/my-hybrid-service" "/workspace/ComfyUI"
           ("24575" +:+ nl +:+ "81920" +:+ nl) 24575 empty_world).
  - reflexivity.
  - apply Nat.leb_le. reflexivity.
  - reflexivity.
Defined.

(** X7: the constructor lets through what its [except] clause does not
    name.  When starting the probe fails with an exception other than
    [FileNotFoundError], [CalledProcessError] and [ValueError] (a
    [PermissionError] on the executable, say), no fallback value is taken:
    the exception leaves [ConfigGenerator(...)] and nothing is logged. *)
Theorem init_spawn_error_propagates (work_dir comfyui_dir : string) (e : exn) (w : world) :
  probe_catches e = false ->
  __init__ work_dir comfyui_dir (SpawnFails e) w = (Raise e, w).
Proof.
  intros H. unfold __init__, _get_gpu_memory, try_except, mbind, M_bind, lift.
  cbn [subprocess_run_stdout]. now rewrite H.
Qed.

Lemma init_spawn_error_propagates_witness :
  __init__ "/my-hybrid-service" "/workspace/ComfyUI" (SpawnFails PermissionError) empty_world
  = (Raise PermissionError, empty_world).
Proof.
  apply (init_spawn_error_propagates "/my-hybrid-service" "/workspace/ComfyUI"
           PermissionError empty_world).
  reflexivity.
Defined.

(** X8: a generator built after a failed probe tunes for low memory.  When
    the probe fails in one of the three ways the constructor recovers from,
    the profile of the generator it returns is the low-memory one: batch
    size 1 and sequential CPU offload. *)
Theorem init_fallback_profile (work_dir comfyui_dir : string) (nvidia_smi : process)
    (w : world) :
  probe_fails nvidia_smi ->
  exists self w',
    __init__ work_dir comfyui_dir nvidia_smi w = (Return self, w') /\
    tier (optimize_for_gpu_memory self) = Some (PStr "low_memory") /\
    field "batch_size" (optimize_for_gpu_memory self) = Some (PInt 1) /\
    field "enable_sequential_cpu_offload" (optimize_for_gpu_memory self) = Some (PBool true).
Proof.
  intros H. unfold __init__, mbind, M_bind. rewrite (_get_gpu_memory_fallback _ _ H).
  do 2 eexists. split; [reflexivity |]. repeat split.
Qed.

Lemma init_fallback_profile_witness :
  exists self w',
    __init__ "/my-hybrid-service" "/workspace/ComfyUI" (Completed 0 ("[N/A]" +:+ nl))
             empty_world = (Return self, w') /\
    tier (optimize_for_gpu_memory self) = Some (PStr "low_memory") /\
    field "batch_size" (optimize_for_gpu_memory self) = Some (PInt 1) /\
    field "enable_sequential_cpu_offload" (optimize_for_gpu_memory self) = Some (PBool true).
Proof.
  apply (init_fallback_profile "/my-hybrid-service" "/workspace/ComfyUI"
           (Completed 0 ("[N/A]" +:+ nl)) empty_world).
  right. split; reflexivity.
Defined.






(** ** The tuning profile *)

(** X10: the sequential-offload key exists in the low-memory profile only.
    Every profile has the keys [memory_management], [batch_size],
    [attention_mode], [model_precision] (always [fp16]), [cache_models] and
    [memory_fraction], in this order; [enable_sequential_cpu_offload]
    follows them when [gpu_memory_gb < 12] and is missing from 12 up. *)
Theorem optimize_for_gpu_memory_keys (self : ConfigGenerator) :
  let profile := optimize_for_gpu_memory self in
  firstn 6 (dict_keys (dict_items (Some profile)))
    = ["memory_management"; "batch_size"; "attention_mode"; "model_precision";
       "cache_models"; "memory_fraction"] /\
  field "model_precision" profile = Some (PStr "fp16") /\
  (field "enable_sequential_cpu_offload" profile = None <-> 12 <= gpu_memory_gb self) /\
  (dict_keys (dict_items (Some profile)) !! 6%nat = Some "enable_sequential_cpu_offload"
     <-> gpu_memory_gb self < 12).
Proof.
  cbv zeta. unfold optimize_for_gpu_memory.
  destruct (Z.leb_spec 24 (gpu_memory_gb self));
    [| destruct (Z.leb_spec 12 (gpu_memory_gb self))];
    repeat split; intros; try discriminate; try reflexivity; lia.
Qed.

(** X11: more memory never means a smaller batch or less caching.  For two
    generators with [gpu_memory_gb a <= gpu_memory_gb b], the batch sizes
    are integers with [1 <= batch a <= batch b <= 4], and model caching on
    for [a] is on for [b]. *)
Theorem optimize_for_gpu_memory_monotone (a b : ConfigGenerator) :
  gpu_memory_gb a <= gpu_memory_gb b ->
  1 <= int_of (field "batch_size" (optimize_for_gpu_memory a))
    <= int_of (field "batch_size" (optimize_for_gpu_memory b)) /\
  int_of (field "batch_size" (optimize_for_gpu_memory b)) <= 4 /\
  (field "cache_models" (optimize_for_gpu_memory a) = Some (PBool true) ->
   field "cache_models" (optimize_for_gpu_memory b) = Some (PBool true)).
Proof.
  intros H. unfold optimize_for_gpu_memory.
  destruct (Z.leb_spec 24 (gpu_memory_gb a));
    [| destruct (Z.leb_spec 12 (gpu_memory_gb a))];
    (destruct (Z.leb_spec 24 (gpu_memory_gb b));
       [| destruct (Z.leb_spec 12 (gpu_memory_gb b))]);
    try lia; cbn; repeat split; try lia; try discriminate; auto.
Qed.

Lemma optimize_for_gpu_memory_monotone_witness :
  1 <= int_of (field "batch_size" (optimize_for_gpu_memory (mkGenerator "/w" "/c" 11)))
    <= int_of (field "batch_size" (optimize_for_gpu_memory (mkGenerator "/w" "/c" 12))) /\
  int_of (field "batch_size" (optimize_for_gpu_memory (mkGenerator "/w" "/c" 12))) <= 4 /\
  (field "cache_models" (optimize_for_gpu_memory (mkGenerator "/w" "/c" 11))
     = Some (PBool true) ->
   field "cache_models" (optimize_for_gpu_memory (mkGenerator "/w" "/c" 12))
     = Some (PBool true)).
Proof.
  apply (optimize_for_gpu_memory_monotone (mkGenerator "/w" "/c" 11)
           (mkGenerator "/w" "/c" 12)).
  cbn. lia.
Defined.

(** ** The workflow graph, again *)

(** X12: the graph every variant gets is closed and acyclic.  Whatever the
    variant, the graph returned has seven nodes, each of its node references
    names a node of the graph, and its nodes can be taken in an order (1, 2,
    5, 3, 4, 6, 7) in which each refers only to nodes taken before. *)
Theorem generate_comfyui_workflow_closed (self : ConfigGenerator) (workflow_type : string) :
  exists graph,
    generate_comfyui_workflow self workflow_type = Return graph /\
    length (dict_items (Some graph)) = 7%nat /\
    refs_closed graph = true /\
    exists order,
      order ≡ₚ dict_keys (dict_items (Some graph)) /\
      ordered [] order graph = true.
Proof.
  destruct (generate_comfyui_workflow_basic self workflow_type) as (graph & E & ->).
  exists graph. injection E as <-. split; [reflexivity |].
  split; [reflexivity |]. split; [vm_compute; reflexivity |].
  exists ["1"; "2"; "5"; "3"; "4"; "6"; "7"]. split; [| vm_compute; reflexivity].
  cbn [dict_keys dict_items map fst].
  do 2 apply Permutation_skip.
  etransitivity; [apply Permutation_swap |]. apply Permutation_skip.
  etransitivity; [apply Permutation_swap |]. reflexivity.
Qed.

(** ** The reverse-proxy configuration, again *)

Lemma nginx_lines_text (server_name : string) :
  join nl (nginx_lines server_name) = nginx_head +:+ server_name +:+ nginx_tail.
Proof.
  unfold nginx_head, nginx_tail.
  change (nginx_lines server_name)
    with ("server {" :: "    listen 80;" :: ("    server_name " +:+ server_name +:+ ";")
          :: skipn 3 (nginx_lines EmptyString)).
  set (rest := skipn 3 (nginx_lines EmptyString)).
  assert (Hr : exists x l, rest = x :: l) by (subst rest; do 2 eexists; reflexivity).
  destruct Hr as (x & l & ->).
  rewrite !join_cons2, !append_assoc. reflexivity.
Qed.

(** X13: the domain goes into the configuration as it is.  For every
    domain, the text returned is a fixed head, the server name and a fixed
    tail: the name is the domain, not checked or escaped, or the wildcard
    when the domain is missing or empty, so that an empty domain gives the
    same text as no domain; and [strip()] never removes more than the line
    breaks at the two ends of the template. *)
Theorem generate_nginx_config_verbatim (self : ConfigGenerator) (domain : option string) :
  generate_nginx_config self domain
    = nginx_head +:+ effective_name domain +:+ nginx_tail /\
  generate_nginx_config self (Some EmptyString) = generate_nginx_config self None.
Proof.
  split; [| reflexivity].
  unfold generate_nginx_config. rewrite nginx_strip, nginx_lines_text.
  now destruct domain as [[|c d]|].
Qed.

(** ** The command line *)

Lemma _get_gpu_memory_returns (nvidia_smi : process) (w : world) :
  probe_returns nvidia_smi ->
  exists gpu w1, _get_gpu_memory nvidia_smi w = (Return gpu, w1) /\ after_probe w w1.
Proof.
  unfold _get_gpu_memory, try_except, mbind, M_bind, lift, int_of_str, after_probe.
  destruct nvidia_smi as [e | rc stdout]; cbn [subprocess_run_stdout probe_returns].
  - intros ->. do 2 eexists. split; [reflexivity | right; reflexivity].
  - intros _. destruct (rc =? 0).
    + rewrite first_item_first_line. destruct (py_int (first_line stdout)).
      * do 2 eexists. split; [reflexivity | left; reflexivity].
      * do 2 eexists. split; [reflexivity | right; reflexivity].
    + do 2 eexists. split; [reflexivity | right; reflexivity].
Qed.

Lemma init_returns (wd cd : string) (nvidia_smi : process) (w : world) :
  probe_returns nvidia_smi ->
  exists self w1,
    __init__ wd cd nvidia_smi w = (Return self, w1) /\
    work_dir self = Path wd /\ after_probe w w1.
Proof.
  intros H. destruct (_get_gpu_memory_returns nvidia_smi w H) as (gpu & w1 & E & Hw).
  unfold __init__, mbind, M_bind. rewrite E. eauto.
Qed.

Lemma after_probe_files (w w1 : world) (f : inode) :
  after_probe w w1 ->
  os_open w1 = os_open w /\ entries w1 = entries w /\
  space_after_open w1 f = space_after_open w f.
Proof. intros [-> | ->]; repeat split. Qed.

Lemma target_path_of (args : Namespace) (self : ConfigGenerator) :
  work_dir self = Path (args_work_dir args) ->
  filepath self (target args) = target_path args.
Proof. unfold filepath, target_path. now intros ->. Qed.

Section MainProperties.
Variable yaml_dump : pyval -> string.

(** What [main] does once the generator is built. *)
Lemma main_after_init (args : Namespace) (nvidia_smi : process) (w w1 : world)
    (self : ConfigGenerator) :
  __init__ (args_work_dir args) (args_comfyui_dir args) nvidia_smi w = (Return self, w1) ->
  saved_type (args_config_type args) = true ->
  exists config format_type,
    (args_config_type args = "workflow" ->
       generate_comfyui_workflow self (args_workflow_type args) = Return config) /\
    (args_config_type args = "optimization" -> config = optimize_for_gpu_memory self) /\
    (args_config_type args = "nginx" ->
       config = PStr (generate_nginx_config self (args_domain args))) /\
    (args_config_type args = "supervisor" -> config = generate_supervisor_config self) /\
    recognised format_type = true /\
    (args_config_type args = "supervisor" -> format_type = "ini") /\
    (args_config_type args = "nginx" -> format_type = "text") /\
    (args_config_type args = "workflow" \/ args_config_type args = "optimization" ->
       format_type = "json") /\
    main yaml_dump args nvidia_smi w
    = match save_config self config (target args) format_type w1 with
      | (Return _, w') => (Return (completed (args_config_type args)), w')
      | (Raise e, w') => (Raise e, w')
      end.
Proof.
  intros Ei Ht. unfold main, target, saved_type in *. unfold mbind at 1, M_bind at 1.
  rewrite Ei.
  destruct (String.eqb_spec (args_config_type args) "supervisor") as [E1 | N1].
  { exists (generate_supervisor_config self), "ini". rewrite E1.
    repeat split; try discriminate; auto; try (intros [H | H]; discriminate H).
    cbv beta iota zeta. unfold mbind, M_bind.
    now destruct (save_config _ _ _ _ w1) as [[b | e] w']. }
  destruct (String.eqb_spec (args_config_type args) "nginx") as [E2 | N2].
  { exists (PStr (generate_nginx_config self (args_domain args))), "text". rewrite E2.
    repeat split; try discriminate; auto; try (intros [H | H]; discriminate H).
    cbv beta iota zeta. unfold mbind, M_bind.
    now destruct (save_config _ _ _ _ w1) as [[b | e] w']. }
  destruct (String.eqb_spec (args_config_type args) "docker") as [E3 | N3].
  { rewrite E3 in Ht. discriminate Ht. }
  destruct (String.eqb_spec (args_config_type args) "workflow") as [E4 | N4].
  { destruct (generate_comfyui_workflow_basic self (args_workflow_type args))
      as (graph & _ & Eg).
    exists graph, "json". rewrite E4.
    repeat split; try discriminate; auto; try (intros [H | H]; discriminate H).
    cbv beta iota zeta. unfold mbind, M_bind, lift. rewrite Eg.
    now destruct (save_config _ _ _ _ w1) as [[b | e] w']. }
  destruct (String.eqb_spec (args_config_type args) "optimization") as [E5 | N5];
    [| discriminate Ht].
  exists (optimize_for_gpu_memory self), "json". rewrite E5.
  repeat split; try discriminate; auto; try (intros [H | H]; discriminate H).
  cbv beta iota zeta. unfold mbind, M_bind.
  now destruct (save_config _ _ _ _ w1) as [[b | e] w'].
Qed.

(** X14: outside the [docker] type, [main] reports completion whether or
    not anything was saved.  For the types [supervisor], [nginx], [workflow]
    and [optimization], once the probe lets the constructor return, [main]
    never raises and prints the completion line; and when [open] refuses
    the target, that line is still printed, after the error was logged and
    with the files left as they were. *)
Theorem main_reports_completion (args : Namespace) (nvidia_smi : process) (w : world) :
  saved_type (args_config_type args) = true ->
  probe_returns nvidia_smi ->
  exists w',
    main yaml_dump args nvidia_smi w = (Return (completed (args_config_type args)), w') /\
    forall r, os_open w (target_path args) = Refused r ->
      entries w' = entries w /\
      last (log w') = Some (failed_message (open_exn r)).
Proof.
  intros Ht Hp.
  destruct (init_returns (args_work_dir args) (args_comfyui_dir args) nvidia_smi w Hp)
    as (self & w1 & Ei & Hd & Hw).
  destruct (main_after_init args nvidia_smi w w1 self Ei Ht)
    as (config & fmt & _ & _ & _ & _ & Hf & _ & _ & _ & ->).
  destruct (after_probe_files w w1 1%positive Hw) as (Ho & Hen & _).
  rewrite save_config_by_body, (target_path_of args self Hd).
  destruct (save_body config (target_path args) fmt w1) as [[[] | e] w2] eqn:Eb.
  - eexists. split; [reflexivity |]. intros r Hr. rewrite <- Ho in Hr.
    rewrite (save_body_unopened _ _ _ _ _ Hf Hr) in Eb. discriminate Eb.
  - eexists. split; [reflexivity |]. intros r Hr. rewrite <- Ho in Hr.
    rewrite (save_body_unopened _ _ _ _ _ Hf Hr) in Eb. injection Eb as <- <-.
    cbn [add_log entries log]. split; [exact Hen |].
    now rewrite last_snoc.
Qed.

(** X15: the [docker] type has no such net.  Its file is opened outside
    any [try]: when [open] refuses the target, its error leaves [main], the
    completion line is not printed, the files are as before and neither a
    saved message nor an error is logged. *)
Theorem main_docker_raises (args : Namespace) (nvidia_smi : process) (w : world)
    (r : open_failure) :
  args_config_type args = "docker" ->
  probe_returns nvidia_smi ->
  os_open w (target_path args) = Refused r ->
  exists w',
    main yaml_dump args nvidia_smi w = (Raise (open_exn r), w') /\
    entries w' = entries w /\
    after_probe w w'.
Proof.
  intros Ht Hp Ho.
  destruct (init_returns (args_work_dir args) (args_comfyui_dir args) nvidia_smi w Hp)
    as (self & w1 & Ei & Hd & Hw).
  destruct (after_probe_files w w1 1%positive Hw) as (Ho1 & Hen & _).
  exists w1. split; [| split; [exact Hen | exact Hw]].
  rewrite <- (target_path_of args self Hd), <- Ho1 in Ho.
  unfold main, target in *. unfold mbind at 1, M_bind at 1. rewrite Ei, Ht in *.
  cbv beta iota zeta. cbn [String.eqb Ascii.eqb Bool.eqb] in *.
  unfold mbind, M_bind. now rewrite (open_w_refused _ _ _ Ho).
Qed.

(** X16: the workflow file is named after the variant asked for, and holds
    the basic graph.  For the type [workflow] without [--output], whatever
    the variant [t], when the path of [workflow_<t>.json] in the working
    directory opens and the device has room for the text, [main] prints the
    completion line and that file holds the JSON text of the graph stored
    under [basic], which reads back as that graph. *)
Theorem main_workflow_file (args : Namespace) (nvidia_smi : process) (w : world)
    (basic : pyval) (f : inode) :
  args_config_type args = "workflow" ->
  args_output args = None ->
  dict_get "basic" workflows = Some basic ->
  probe_returns nvidia_smi ->
  os_open w (Path (posix_join (Path (args_work_dir args))
                              ("workflow_" +:+ args_workflow_type args +:+ ".json")))
    = Opened f ->
  (String.length (json_dumps basic) <= space_after_open w f)%nat ->
  exists w',
    main yaml_dump args nvidia_smi w = (Return (completed "workflow"), w') /\
    entries w' !! f = Some (json_dumps basic) /\
    json_loads (json_dumps basic) = Some basic.
Proof.
  intros Ht Hout Hb Hp Ho Hl.
  destruct (init_returns (args_work_dir args) (args_comfyui_dir args) nvidia_smi w Hp)
    as (self & w1 & Ei & Hd & Hw).
  assert (Hs : saved_type (args_config_type args) = true) by now rewrite Ht.
  destruct (main_after_init args nvidia_smi w w1 self Ei Hs)
    as (config & fmt & Hc & _ & _ & _ & _ & _ & _ & Hf & ->).
  assert (Etarget : target args = "workflow_" +:+ args_workflow_type args +:+ ".json")
    by (unfold target; now rewrite Ht, Hout).
  destruct (generate_comfyui_workflow_basic self (args_workflow_type args))
    as (basic' & Hb' & Eg).
  rewrite (Hc Ht) in Eg. injection Eg as ->. assert (basic' = basic) as -> by congruence.
  destruct (after_probe_files w w1 f Hw) as (Ho1 & _ & Hsp).
  assert (Hbasic : basic = dict_get_default "basic" workflows PNone)
    by (injection Hb as <-; reflexivity).
  rewrite (Hf (or_introl Ht)), Ht.
  rewrite (save_config_saved self basic _ "json" (json_dumps basic) f).
  - eexists. split; [reflexivity |]. split.
    + cbn [saved_world entries]. apply lookup_insert_eq.
    + apply json_roundtrip. rewrite Hbasic. vm_compute. reflexivity.
  - reflexivity.
  - rewrite Hbasic. vm_compute. reflexivity.
  - rewrite Ho1. unfold filepath. now rewrite Hd, Etarget.
  - now rewrite Hsp.
Qed.

(** X17: from the probe to the file.  For the type [optimization], when the
    probe exits with code 0 and prints ASCII text of at most 4300
    characters whose first line is the integer [mib], the target opens and
    the device has room for the text, [main] prints the completion line and
    the file reads back, with [json.loads], as the tuning profile of
    [mib // 1024] gigabytes. *)
Theorem main_optimization_reload (args : Namespace) (stdout : string) (mib : Z) (w : world)
    (f : inode) :
  let self := mkGenerator (Path (args_work_dir args)) (Path (args_comfyui_dir args))
                          (mib `div` 1024) in
  args_config_type args = "optimization" ->
  ascii_text stdout = true ->
  (String.length stdout <= 4300)%nat ->
  py_int (first_line stdout) = Some mib ->
  os_open w (target_path args) = Opened f ->
  (String.length (json_dumps (optimize_for_gpu_memory self)) <= space_after_open w f)%nat ->
  exists w' content,
    main yaml_dump args (Completed 0 stdout) w = (Return (completed "optimization"), w') /\
    entries w' !! f = Some content /\
    json_loads content = Some (optimize_for_gpu_memory self).
Proof.
  intros self Ht _ _ Hi Ho Hl.
  assert (Ei : __init__ (args_work_dir args) (args_comfyui_dir args) (Completed 0 stdout) w
               = (Return self, w)).
  { unfold __init__, mbind, M_bind. now rewrite (_get_gpu_memory_reads _ _ _ Hi). }
  assert (Hs : saved_type (args_config_type args) = true) by now rewrite Ht.
  destruct (main_after_init args (Completed 0 stdout) w w self Ei Hs)
    as (config & fmt & _ & Hc & _ & _ & _ & _ & _ & Hf & ->).
  rewrite (Hf (or_intror Ht)), (Hc Ht), Ht.
  rewrite (save_config_saved self _ _ "json" (json_dumps (optimize_for_gpu_memory self)) f);
    [| reflexivity | apply tuning_profile_valid | exact Ho | exact Hl].
  do 2 eexists. split; [reflexivity |]. split.
  - cbn [saved_world entries]. apply lookup_insert_eq.
  - apply json_roundtrip, tuning_profile_well_formed.
Qed.

(** X18: the proxy configuration reaches the file as it was generated.  For
    the type [nginx], when the server name can be encoded, the target (the
    [--output] name, or [nginx_site.conf] when that is missing or empty)
    opens and the device has room for the text, [main] prints the
    completion line and the file holds the fixed head, the effective server
    name and the fixed tail, with no quoting added by the text format. *)
Theorem main_nginx_file (args : Namespace) (nvidia_smi : process) (w : world) (f : inode) :
  let text := nginx_head +:+ effective_name (args_domain args) +:+ nginx_tail in
  args_config_type args = "nginx" ->
  probe_returns nvidia_smi ->
  utf8_valid (effective_name (args_domain args)) = true ->
  os_open w (Path (posix_join (Path (args_work_dir args))
                              (or_else (args_output args) "nginx_site.conf")))
    = Opened f ->
  (String.length text <= space_after_open w f)%nat ->
  exists w',
    main yaml_dump args nvidia_smi w = (Return (completed "nginx"), w') /\
    entries w' !! f = Some text.
Proof.
  intros text Ht Hp Hv Ho Hl.
  destruct (init_returns (args_work_dir args) (args_comfyui_dir args) nvidia_smi w Hp)
    as (self & w1 & Ei & Hd & Hw).
  assert (Hs : saved_type (args_config_type args) = true) by now rewrite Ht.
  destruct (main_after_init args nvidia_smi w w1 self Ei Hs)
    as (config & fmt & _ & _ & Hc & _ & _ & _ & Hf & _ & ->).
  assert (Etarget : target args = or_else (args_output args) "nginx_site.conf")
    by (unfold target; now rewrite Ht).
  rewrite (Hf Ht), (Hc Ht), Ht.
  assert (Etext : generate_nginx_config self (args_domain args) = text).
  { unfold generate_nginx_config. rewrite nginx_strip, nginx_lines_text.
    subst text. now destruct (args_domain args) as [[|c d]|]. }
  rewrite Etext.
  destruct (after_probe_files w w1 f Hw) as (Ho1 & _ & Hsp).
  rewrite (save_config_saved self (PStr text) _ "text" text f).
  - eexists. split; [reflexivity |]. cbn [saved_world entries]. apply lookup_insert_eq.
  - reflexivity.
  - unfold encodable. cbn [String.eqb Ascii.eqb Bool.eqb py_str]. subst text.
    apply utf8_valid_app; [vm_compute; reflexivity |].
    apply utf8_valid_app; [exact Hv | vm_compute; reflexivity].
  - rewrite Ho1. unfold filepath. now rewrite Hd, Etarget.
  - now rewrite Hsp.
Qed.
End MainProperties.

Lemma main_reports_completion_witness :
  exists w',
    main py_repr
         (mkNamespace "/my-hybrid-service" "/workspace/ComfyUI" "supervisor" None None "basic")
         (SpawnFails FileNotFoundError) readonly_world
      = (Return (completed "supervisor"), w') /\
    forall r,
      os_open readonly_world
        (target_path (mkNamespace "/my-hybrid-service" "/workspace/ComfyUI" "supervisor"
                                  None None "basic")) = Refused r ->
      entries w' = entries readonly_world /\
      last (log w') = Some (failed_message (open_exn r)).
Proof.
  apply (main_reports_completion py_repr
           (mkNamespace "/my-hybrid-service" "/workspace/ComfyUI" "supervisor" None None "basic")
           (SpawnFails FileNotFoundError) readonly_world); reflexivity.
Defined.

Lemma main_docker_raises_witness :
  exists w',
    main py_repr
         (mkNamespace "/my-hybrid-service" "/workspace/ComfyUI" "docker" None None "basic")
         (Completed 0 ("8192" +:+ nl)) readonly_world
      = (Raise (open_exn Denied), w') /\
    entries w' = entries readonly_world /\
    after_probe readonly_world w'.
Proof.
  apply (main_docker_raises py_repr
           (mkNamespace "/my-hybrid-service" "/workspace/ComfyUI" "docker" None None "basic")
           (Completed 0 ("8192" +:+ nl)) readonly_world Denied); reflexivity.
Defined.

Lemma main_workflow_file_witness :
  exists w',
    main py_repr
         (mkNamespace "/my-hybrid-service" "/workspace/ComfyUI" "workflow" None None "upscale")
         (Completed 0 ("8192" +:+ nl)) empty_world
      = (Return (completed "workflow"), w') /\
    entries w' !! countable.encode "/my-hybrid-service/workflow_upscale.json"
      = Some (json_dumps (dict_get_default "basic" workflows PNone)) /\
    json_loads (json_dumps (dict_get_default "basic" workflows PNone))
      = Some (dict_get_default "basic" workflows PNone).
Proof.
  apply (main_workflow_file py_repr
           (mkNamespace "/my-hybrid-service" "/workspace/ComfyUI" "workflow" None None "upscale")
           (Completed 0 ("8192" +:+ nl)) empty_world
           (dict_get_default "basic" workflows PNone)
           (countable.encode "/my-hybrid-service/workflow_upscale.json"));
    try reflexivity.
  apply Nat.leb_le. vm_compute. reflexivity.
Defined.

Lemma main_optimization_reload_witness :
  exists w' content,
    main py_repr
         (mkNamespace "/my-hybrid-service" "/workspace/ComfyUI" "optimization" None None "basic")
         (Completed 0 ("24576" +:+ nl)) empty_world
      = (Return (completed "optimization"), w') /\
    entries w' !! countable.encode "/my-hybrid-service/gpu_optimization.json" = Some content /\
    json_loads content
      = Some (optimize_for_gpu_memory
                (mkGenerator (Path "/my-hybrid-service") (Path "/workspace/ComfyUI")
                             (24576 `div` 1024))).
Proof.
  apply (main_optimization_reload py_repr
           (mkNamespace "/my-hybrid-service" "/workspace/ComfyUI" "optimization" None None "basic")
           ("24576" +:+ nl) 24576 empty_world
           (countable.encode "/my-hybrid-service/gpu_optimization.json"));
    try reflexivity; apply Nat.leb_le; vm_compute; reflexivity.
Defined.

Lemma main_nginx_file_witness :
  exists w',
    main py_repr
         (mkNamespace "/my-hybrid-service" "/workspace/ComfyUI" "nginx"
                      (Some EmptyString) (Some "example.com") "basic")
         (SpawnFails FileNotFoundError) empty_world
      = (Return (completed "nginx"), w') /\
    entries w' !! countable.encode "/my-hybrid-service/nginx_site.conf"
      = Some (nginx_head +:+ effective_name (Some "example.com") +:+ nginx_tail).
Proof.
  apply (main_nginx_file py_repr
           (mkNamespace "/my-hybrid-service" "/workspace/ComfyUI" "nginx"
                        (Some EmptyString) (Some "example.com") "basic")
           (SpawnFails FileNotFoundError) empty_world
           (countable.encode "/my-hybrid-service/nginx_site.conf"));
    try reflexivity.
  apply Nat.leb_le. vm_compute. reflexivity.
Defined.
